(** * Cross-chain feature aggregation

  A shallow embedding of [aggregate_features_across_chains]
  (src/components/aggregate_features_across_chains.py): the Kubeflow
  component that fetches the per-chain feature records from object storage,
  converts and annotates them with the AlphaFold library, pairs, merges and
  pads them (or keeps the single record of a monomer), and uploads the
  result.

  The component is a straight-line program over three outside parties:
  the object store, the pickle serialiser and four AlphaFold routines.
  The object store is a finite map in the state of the run; the serialiser
  and the AlphaFold routines are parameters, packed in the record
  [library].  What the component itself decides -- which blob it reads,
  which error it raises, which branch it takes, what it uploads and what it
  reports -- is translated statement by statement.

  The prediction component (src/components/model_predict.py) and the
  template search component (src/components/hmmsearch.py) are embedded the
  same way, each with the routines it calls as parameters.

  Left out: the shape printing and logging (diagnostics only), and the
  decoding of the manifest, which is taken as [json.loads] returns it, a
  ['chains'] object of strings and an optional ['full_protein'] string. *)

From Stdlib Require Import ZArith String Ascii.
From stdpp Require Import gmap strings list.

Local Open Scope Z_scope.
Local Open Scope nat_scope.

(** ** Python string operations used by the component *)

Module PyStr.

(** [old in s]: some suffix of [s] starts with [old]. *)
Fixpoint occurs (old s : string) : bool :=
  String.prefix old s ||
  match s with
  | EmptyString => false
  | String _ rest => occurs old rest
  end.

(** [s.replace(old, new)] for a non-empty [old]: every occurrence found
    scanning from the left is replaced; [skip] counts the characters of the
    current occurrence that still have to be dropped. *)
Fixpoint replace_from (old new : string) (skip : nat) (s : string) : string :=
  match s with
  | EmptyString => EmptyString
  | String c rest =>
      match skip with
      | S k => replace_from old new k rest
      | O =>
          if String.prefix old s
          then new +:+ replace_from old new (String.length old - 1) rest
          else String c (replace_from old new 0 rest)
      end
  end.

Definition replace (old new s : string) : string := replace_from old new 0 s.

(** [s.split(sep)] for a one-character separator; never the empty list. *)
Fixpoint split (sep : ascii) (s : string) : list string :=
  match s with
  | EmptyString => [EmptyString]
  | String c rest =>
      if Ascii.eqb c sep then EmptyString :: split sep rest
      else match split sep rest with
           | [] => [String c EmptyString]
           | piece :: pieces => String c piece :: pieces
           end
  end.

(** [sep.join(pieces)]. *)
Fixpoint join (sep : string) (pieces : list string) : string :=
  match pieces with
  | [] => EmptyString
  | [piece] => piece
  | piece :: more => piece +:+ sep +:+ join sep more
  end.

(** [s.endswith(c)] for a single character. *)
Fixpoint ends_with (c : ascii) (s : string) : bool :=
  match s with
  | EmptyString => false
  | String d EmptyString => Ascii.eqb d c
  | String _ rest => ends_with c rest
  end.

(** [os.path.join(a, b)] of posixpath, two arguments. *)
Definition path_join (a b : string) : string :=
  if String.prefix "/" b then b
  else if String.eqb a EmptyString || ends_with "/" a then a +:+ b
  else a +:+ "/" +:+ b.

End PyStr.

(** ** Storage locations *)

(** [features_path.replace('gs://', '').split('/')[0]] *)
Definition bucket_of (path : string) : string :=
  hd EmptyString (PyStr.split "/" (PyStr.replace "gs://" EmptyString path)).

(** ['/'.join(features_path.replace('gs://', '').split('/')[1:])] *)
Definition prefix_of (path : string) : string :=
  PyStr.join "/" (tl (PyStr.split "/" (PyStr.replace "gs://" EmptyString path))).

(** The name under which a bucket and an object name are addressed. *)
Definition gs_uri (bucket blob_path : string) : string :=
  "gs://" +:+ bucket +:+ "/" +:+ blob_path.

(** Where a chain's record is kept, from the chain's entry in the manifest:
  [bucket_name] and [blob_path] of the loop body. *)
Definition chain_location (features_path : string) : string * string :=
  (bucket_of features_path, prefix_of features_path +:+ "/features.pkl").

(** Where the merged record goes: [dest_bucket_name] and [dest_blob_path]. *)
Definition output_location (output_features_path : string) : string * string :=
  (bucket_of output_features_path,
   PyStr.path_join (prefix_of output_features_path) "all_chain_features.pkl").

(** ** Data *)

(** A Python [dict] keeps its keys in insertion order; assigning to a key
  that is present replaces the value in place. *)
Section PyDict.
Context {V : Type}.

Fixpoint dict_get (k : string) (d : list (string * V)) : option V :=
  match d with
  | [] => None
  | (k', v) :: rest => if String.eqb k' k then Some v else dict_get k rest
  end.

Fixpoint dict_set (k : string) (v : V) (d : list (string * V))
  : list (string * V) :=
  match d with
  | [] => [(k, v)]
  | (k', v') :: rest =>
      if String.eqb k' k then (k', v) :: rest
      else (k', v') :: dict_set k v rest
  end.

Definition dict_keys (d : list (string * V)) : list string := d.*1.
End PyDict.

(** An array is kept by its rows: axis 0 of the ['msa'] array is the
  alignment depth, the only axis the component's contract speaks about. *)
Definition ndarray := list (list Z).

(** A feature record: named arrays. *)
Definition feature_dict := list (string * ndarray).

(** The per-chain records, keyed by chain identifier. *)
Definition chain_features_dict := list (string * feature_dict).

(** [features_dict['msa'].shape[0]] *)
Definition msa_depth (r : feature_dict) : option nat :=
  length <$> dict_get "msa" r.

(** An entry of [sequences.metadata['chain_info']]. *)
Record chain_data := ChainData { chain_id : string }.

(** [json.loads(per_chain_features_dir)]: the manifest. *)
Record paths_info := PathsInfo {
  chains : gmap string string;
  full_protein : option string
}.

(** Exceptions, each with the text [str(e)] gives. *)
Inductive exn :=
  | ValueError (msg : string)
  | FileNotFoundError (msg : string)
  | RuntimeError (msg : string)
  | OtherError (class msg : string).

Definition str_of_exn (e : exn) : string :=
  match e with
  | ValueError msg | FileNotFoundError msg | RuntimeError msg
  | OtherError _ msg => msg
  end.

Inductive result (A : Type) :=
  | Ok (a : A)
  | Raise (e : exn).
Arguments Ok {A} a.
Arguments Raise {A} e.

(** A value of an artifact's metadata dictionary. *)
Inductive meta_value :=
  | MStr (s : string)
  | MInt (n : Z).

(** The output artifact [features]. *)
Record artifact := Artifact {
  uri : string;
  metadata : gmap string meta_value
}.

(** What a run does to the outside, in the order it does it. *)
Inductive event :=
  | EvExists (bucket blob_path : string)
  | EvDownload (bucket blob_path : string)
  | EvConvert (chain : string)
  | EvAssembly
  | EvPairAndMerge
  | EvPadMsa (num_seq : nat)
  | EvUpload (bucket blob_path : string).

(** The serialiser and the AlphaFold routines the component calls.  They are
  not part of the repository; each may raise. *)
Record library (bytes : Type) := Library {
  pickle_load : bytes -> result feature_dict;
  pickle_dump : feature_dict -> result bytes;
  convert_monomer_features : feature_dict -> string -> result feature_dict;
  add_assembly_features : chain_features_dict -> result chain_features_dict;
  pair_and_merge : chain_features_dict -> result feature_dict;
  pad_msa : feature_dict -> nat -> result feature_dict
}.
Arguments pickle_load {bytes} _ _.
Arguments pickle_dump {bytes} _ _.
Arguments convert_monomer_features {bytes} _ _ _.
Arguments add_assembly_features {bytes} _ _.
Arguments pair_and_merge {bytes} _ _.
Arguments pad_msa {bytes} _ _ _.

(** The state a run acts on: the object store (bucket and object name to
  content), whether the store refuses an upload (and with which
  exception), the output artifact, and the calls made so far. *)
Record world (bytes : Type) := World {
  gcs : gmap (string * string) bytes;
  gcs_upload_fault : string -> string -> option exn;
  features : artifact;
  trace : list event
}.
Arguments World {bytes} _ _ _ _.
Arguments gcs {bytes} _.
Arguments gcs_upload_fault {bytes} _ _ _.
Arguments features {bytes} _.
Arguments trace {bytes} _.

(** ** The monad of a run: state, and an exception or a value *)

Section Run.
Context {bytes : Type}.

Definition M (A : Type) : Type := world bytes -> result A * world bytes.

Definition ret {A} (a : A) : M A := fun w => (Ok a, w).

Definition bind {A B} (m : M A) (k : A -> M B) : M B :=
  fun w =>
    match m w with
    | (Ok a, w') => k a w'
    | (Raise e, w') => (Raise e, w')
    end.

Definition raise {A} (e : exn) : M A := fun w => (Raise e, w).

(** [try: m  except Exception as e: h e] *)
Definition try_except {A} (m : M A) (h : exn -> M A) : M A :=
  fun w =>
    match m w with
    | (Ok a, w') => (Ok a, w')
    | (Raise e, w') => h e w'
    end.

Definition lift {A} (r : result A) : M A := fun w => (r, w).

Definition emit (ev : event) : M unit :=
  fun w =>
    (Ok tt, World (gcs w) (gcs_upload_fault w) (features w) (trace w ++ [ev])).

(** A call into the library: recorded, then its outcome. *)
Definition call {A} (ev : event) (r : result A) : M A :=
  bind (emit ev) (fun _ => lift r).

(** [bucket.blob(blob_path).exists()] *)
Definition blob_exists (bucket blob_path : string) : M bool :=
  bind (emit (EvExists bucket blob_path)) (fun _ w =>
    (Ok (bool_decide (is_Some (gcs w !! (bucket, blob_path)))), w)).

(** [blob.download_to_filename(...)] and reading the file back. *)
Definition blob_download (bucket blob_path : string) : M bytes :=
  bind (emit (EvDownload bucket blob_path)) (fun _ w =>
    match gcs w !! (bucket, blob_path) with
    | Some content => (Ok content, w)
    | None => (Raise (OtherError "NotFound" (gs_uri bucket blob_path)), w)
    end).

(** [blob.upload_from_filename(...)] of a file holding [content]. *)
Definition blob_upload (bucket blob_path : string) (content : bytes) : M unit :=
  bind (emit (EvUpload bucket blob_path)) (fun _ w =>
    match gcs_upload_fault w bucket blob_path with
    | Some e => (Raise e, w)
    | None =>
        (Ok tt, World (<[(bucket, blob_path) := content]> (gcs w))
                      (gcs_upload_fault w) (features w) (trace w))
    end).

(** [features.uri = ...; features.metadata = ...] *)
Definition set_features (a : artifact) : M unit :=
  fun w => (Ok tt, World (gcs w) (gcs_upload_fault w) a (trace w)).

End Run.

Declare Scope run_scope.
Delimit Scope run_scope with run.
Notation "'let*' x ':=' m 'in' k" := (bind m (fun x => k))
  (at level 10, x name, m at level 100, k at level 200) : run_scope.
Notation "m ';;' k" := (bind m (fun _ => k))
  (at level 100, k at level 200, right associativity) : run_scope.

(** ** The component *)

Section Component.
Context {bytes : Type}.
Variable lib : library bytes.

Local Open Scope run_scope.

(** The body of [for chain_data in chain_info:]. *)
Definition load_chain (paths : paths_info)
    (all_chain_features : chain_features_dict) (cd : chain_data)
  : M (bytes := bytes) chain_features_dict :=
  let cid := chain_id cd in
  match chains paths !! cid with
  | None =>
      raise (ValueError ("No path information found for chain " +:+ cid))
  | Some features_path =>
      let '(bucket_name, blob_path) := chain_location features_path in
      let* present := blob_exists bucket_name blob_path in
      if negb present then
        raise (FileNotFoundError
                 ("Features file not found in GCS for chain " +:+ cid
                  +:+ ": gs://" +:+ bucket_name +:+ "/" +:+ blob_path))
      else
        let* content := blob_download bucket_name blob_path in
        let* chain_features := lift (pickle_load lib content) in
        let* chain_features :=
          call (EvConvert cid)
               (convert_monomer_features lib chain_features cid) in
        ret (dict_set cid chain_features all_chain_features)
  end.

(** The loop, from the dictionary built so far. *)
Fixpoint load_chains (paths : paths_info)
    (all_chain_features : chain_features_dict) (chain_info : list chain_data)
  : M (bytes := bytes) chain_features_dict :=
  match chain_info with
  | [] => ret all_chain_features
  | cd :: rest =>
      let* all_chain_features := load_chain paths all_chain_features cd in
      load_chains paths all_chain_features rest
  end.

(** The test of the [if] that chooses between the two branches. *)
Definition single_chain_case (is_homomer_or_monomer : string)
    (all_chain_features : chain_features_dict) : bool :=
  String.eqb is_homomer_or_monomer "true"
  && Nat.eqb (length all_chain_features) 1.

(** The [if]/[else] that yields [np_example]. *)
Definition merge_chains (is_homomer_or_monomer : string)
    (all_chain_features : chain_features_dict)
  : M (bytes := bytes) feature_dict :=
  if single_chain_case is_homomer_or_monomer all_chain_features then
    match all_chain_features with
    | (_, np_example) :: _ => ret np_example
    | [] => raise (OtherError "StopIteration" EmptyString)
    end
  else
    let* np_example :=
      call EvPairAndMerge (pair_and_merge lib all_chain_features) in
    call (EvPadMsa 512) (pad_msa lib np_example 512).

(** The output location: the manifest's ['full_protein'] when it has one. *)
Definition effective_output (paths : paths_info)
    (output_features_path : string) : string :=
  match full_protein paths with
  | Some p => p
  | None => output_features_path
  end.

(** The [try]/[except] around serialising and uploading. *)
Definition save_features (output_features_path : string)
    (np_example : feature_dict) : M (bytes := bytes) unit :=
  let '(dest_bucket_name, dest_blob_path) :=
    output_location output_features_path in
  try_except
    (let* content := lift (pickle_dump lib np_example) in
     blob_upload dest_bucket_name dest_blob_path content)
    (fun e =>
       raise (RuntimeError
                ("Failed to save features to GCS at "
                 +:+ output_features_path +:+ ": " +:+ str_of_exn e))).

Definition aggregate_features_across_chains
    (per_chain_features_dir : paths_info)
    (chain_info : list chain_data)
    (is_homomer_or_monomer : string)
    (output_features_path : string) : M (bytes := bytes) unit :=
  let* all_chain_features :=
    load_chains per_chain_features_dir [] chain_info in
  let* all_chain_features :=
    call EvAssembly (add_assembly_features lib all_chain_features) in
  let* np_example :=
    merge_chains is_homomer_or_monomer all_chain_features in
  let output_features_path :=
    effective_output per_chain_features_dir output_features_path in
  save_features output_features_path np_example ;;
  set_features
    (Artifact
       (PyStr.path_join output_features_path "all_chain_features.pkl")
       {[ "is_homomer_or_monomer" := MStr is_homomer_or_monomer;
          "num_chains" := MInt (Z.of_nat (length all_chain_features)) ]}).

End Component.

(** ** The prediction component (src/components/model_predict.py) *)

(** A value of the metadata of a prediction artifact; a float is kept by
  its bits, the component only passes it on. *)
Inductive pvalue :=
  | PStr (s : string)
  | PInt (n : Z)
  | PFloat (bits : Z).

(** An output artifact of [predict]. *)
Record out_artifact := OutArtifact {
  out_uri : string;
  out_metadata : gmap string pvalue
}.

(** The keyword arguments of the call to [alphafold_predict]. *)
Record predict_args := PredictArgs {
  model_features_path : string;
  model_params_path : string;
  model_name : string;
  num_ensemble : Z;
  run_multimer_system : bool;
  random_seed : Z;
  raw_prediction_path : string;
  unrelaxed_protein_path : string
}.

(** What a called routine can reach of the machine it runs on: the object
  store (mounted as a file system under the artifacts' paths), the local
  files and the process environment. *)
Record surroundings (bytes : Type) := Surroundings {
  sur_store : gmap (string * string) bytes;
  sur_files : gmap string bytes;
  sur_environ : gmap string string
}.
Arguments Surroundings {bytes} _ _ _.
Arguments sur_store {bytes} _.
Arguments sur_files {bytes} _.
Arguments sur_environ {bytes} _.

(** What [predict] relies on from outside: the local path the pipeline
  library gives for an artifact's uri ([Artifact.path]); the name of the
  file [tempfile.NamedTemporaryFile] creates; the error
  [blob.download_to_filename] raises for a bucket and an object that is not
  there, and what it leaves of the file then (nothing, or a file with some
  content); and [alphafold_predict], which reads the features and the
  parameters, writes the raw prediction and the unrelaxed protein at the
  paths it is given, and returns the prediction result or raises: it acts
  on the surroundings. *)
Record predict_library (bytes : Type) := PredictLibrary {
  artifact_path : string -> string;
  temp_file_name : string;
  download_error : string -> string -> exn;
  failed_download_file : option bytes;
  alphafold_predict :
    predict_args -> surroundings bytes ->
    result (gmap string pvalue) * surroundings bytes
}.
Arguments artifact_path {bytes} _ _.
Arguments temp_file_name {bytes} _.
Arguments download_error {bytes} _ _ _.
Arguments failed_download_file {bytes} _.
Arguments alphafold_predict {bytes} _ _ _.

(** The state [predict] acts on: the object store, the local files, the
  process environment, the two output artifacts and the downloads made. *)
Record predict_world (bytes : Type) := PredictWorld {
  store : gmap (string * string) bytes;
  files : gmap string bytes;
  environ : gmap string string;
  raw_prediction : out_artifact;
  unrelaxed_protein : out_artifact;
  downloads : list (string * string)
}.
Arguments PredictWorld {bytes} _ _ _ _ _ _.
Arguments store {bytes} _.
Arguments files {bytes} _.
Arguments environ {bytes} _.
Arguments raw_prediction {bytes} _.
Arguments unrelaxed_protein {bytes} _.
Arguments downloads {bytes} _.

Section Predict.
Context {bytes : Type}.
Variable plib : predict_library bytes.

(** [if model_features.uri.startswith('gs://'): ... else: ...]: the local
  path of the model features, after downloading them when they are in the
  object store. *)
Definition fetch_model_features (model_features_uri : string)
    (w : predict_world bytes) : result string * predict_world bytes :=
  if String.prefix "gs://" model_features_uri then
    let bucket_name := bucket_of model_features_uri in
    let blob_path := prefix_of model_features_uri in
    let temp_file := temp_file_name plib in
    match store w !! (bucket_name, blob_path) with
    | Some content =>
        (Ok temp_file,
         PredictWorld (store w) (<[temp_file := content]> (files w))
           (environ w) (raw_prediction w) (unrelaxed_protein w)
           (downloads w ++ [(bucket_name, blob_path)]))
    | None =>
        (Raise (download_error plib bucket_name blob_path),
         PredictWorld (store w)
           (match failed_download_file plib with
            | Some content => <[temp_file := content]> (files w)
            | None => delete temp_file (files w)
            end)
           (environ w) (raw_prediction w) (unrelaxed_protein w)
           (downloads w ++ [(bucket_name, blob_path)]))
    end
  else (Ok (artifact_path plib model_features_uri), w).

Definition predict
    (model_features_uri model_params_uri : string)
    (model_name : string)
    (prediction_index num_ensemble : Z)
    (run_multimer_system : bool)
    (random_seed : Z)
    (tf_force_unified_memory xla_python_client_mem_fraction : string)
    (w : predict_world bytes) : result unit * predict_world bytes :=
  let w :=
    PredictWorld (store w) (files w)
      (<["XLA_PYTHON_CLIENT_MEM_FRACTION" := xla_python_client_mem_fraction]>
         (<["TF_FORCE_UNIFIED_MEMORY" := tf_force_unified_memory]>
            (environ w)))
      (raw_prediction w) (unrelaxed_protein w) (downloads w) in
  match fetch_model_features model_features_uri w with
  | (Raise e, w) => (Raise e, w)
  | (Ok model_features_path, w) =>
      let raw :=
        OutArtifact (out_uri (raw_prediction w) +:+ ".pkl")
                    (out_metadata (raw_prediction w)) in
      let unrelaxed :=
        OutArtifact (out_uri (unrelaxed_protein w) +:+ ".pdb")
                    (out_metadata (unrelaxed_protein w)) in
      let args :=
        PredictArgs model_features_path (artifact_path plib model_params_uri)
          model_name num_ensemble run_multimer_system random_seed
          (artifact_path plib (out_uri raw))
          (artifact_path plib (out_uri unrelaxed)) in
      match
        alphafold_predict plib args
          (Surroundings (store w) (files w) (environ w))
      with
      | (Raise e, after) =>
          (Raise e,
           PredictWorld (sur_store after) (sur_files after)
             (sur_environ after) raw unrelaxed (downloads w))
      | (Ok prediction_result, after) =>
          let md :=
            <["prediction_index" := PInt prediction_index]>
              (<["category" := PStr "raw_prediction"]> (out_metadata raw)) in
          match prediction_result !! "ranking_confidence" with
          | None =>
              (Raise (OtherError "KeyError" "'ranking_confidence'"),
               PredictWorld (sur_store after) (sur_files after)
                 (sur_environ after)
                 (OutArtifact (out_uri raw) md) unrelaxed (downloads w))
          | Some confidence =>
              (Ok tt,
               PredictWorld (sur_store after) (sur_files after)
                 (sur_environ after)
                 (OutArtifact (out_uri raw)
                    (<["ranking_confidence" := confidence]> md))
                 (OutArtifact (out_uri unrelaxed)
                    (<["category" := PStr "unrelaxed_protein"]>
                       (out_metadata unrelaxed)))
                 (downloads w))
          end
      end
  end.

End Predict.

(** ** The template search component (src/components/hmmsearch.py) *)

(** An input artifact: its uri and its metadata. *)
Record in_artifact := InArtifact {
  in_uri : string;
  in_metadata : gmap string meta_value
}.

(** The reference databases: the mount point as uri and, as metadata, the
  path of each database by name. *)
Record database_artifact := DatabaseArtifact {
  db_uri : string;
  db_metadata : gmap string string
}.

(** The keyword arguments of the call to [run_hmmsearch]. *)
Record hmmsearch_args := HmmsearchArgs {
  sequence_path : string;
  msa_path : string;
  msa_data_format : meta_value;
  template_db_path : string;
  mmcif_path : string;
  obsolete_path : string;
  hs_max_template_date : string;
  hs_max_template_hits : Z;
  template_hits_path : string;
  template_features_path : string
}.

(** What [hmmsearch] relies on from outside: [Artifact.path] and
  [run_hmmsearch], which returns the hits, as the list of their lines, (and
  features the component does not look at) or raises. *)
Record hmmsearch_library := HmmsearchLibrary {
  hs_artifact_path : string -> string;
  run_hmmsearch : hmmsearch_args -> result (list string)
}.

(** The two output artifacts of [hmmsearch]. *)
Record hmmsearch_outputs := HmmsearchOutputs {
  template_hits : artifact;
  template_features : artifact
}.

(** [repr(s)] of a string, a character standing for the code point of its
  number: the string between apostrophes, or between double quotes when it
  holds an apostrophe and no double quote; the quote in use and the
  backslash get a backslash in front, tab, newline and return are written
  [\t], [\n] and [\r], and what is not printable is written [\xNN]. *)
Definition double_quote : ascii := ascii_of_nat 34.

Definition hex_digit (n : nat) : ascii :=
  nth n (list_ascii_of_string "0123456789abcdef") "0"%char.

(** [str.isprintable] below 256: no control character; of the spaces the
  plain one only; not the soft hyphen. *)
Definition printable (c : ascii) : bool :=
  let n := nat_of_ascii c in
  (32 <=? n) && (n <? 127) || (161 <=? n) && negb (n =? 173).

Definition repr_char (quote c : ascii) : string :=
  if Ascii.eqb c quote || Ascii.eqb c "\"%char
  then String "\" (String c EmptyString)
  else if Ascii.eqb c (ascii_of_nat 9) then "\t"
  else if Ascii.eqb c (ascii_of_nat 10) then "\n"
  else if Ascii.eqb c (ascii_of_nat 13) then "\r"
  else if printable c then String c EmptyString
  else String "\" (String "x"
         (String (hex_digit (nat_of_ascii c / 16))
            (String (hex_digit (nat_of_ascii c mod 16)) EmptyString))).

Fixpoint repr_body (quote : ascii) (s : string) : string :=
  match s with
  | EmptyString => EmptyString
  | String c rest => repr_char quote c +:+ repr_body quote rest
  end.

Definition py_repr (s : string) : string :=
  let quote :=
    if PyStr.occurs "'" s
       && negb (PyStr.occurs (String double_quote EmptyString) s)
    then double_quote else "'"%char in
  String quote (repr_body quote s +:+ String quote EmptyString).

(** [d[k]] of a dictionary with string keys; the text of a [KeyError] is
  the [repr] of the key. *)
Definition subscript {V} (d : gmap string V) (k : string) : result V :=
  match d !! k with
  | Some v => Ok v
  | None => Raise (OtherError "KeyError" (py_repr k))
  end.

(** A step that may raise, then the rest. *)
Definition and_then {A B} (r : result A) (k : A -> result B) : result B :=
  match r with
  | Ok a => k a
  | Raise e => Raise e
  end.

Section Hmmsearch.
Variable hlib : hmmsearch_library.

(** The arguments of the call, evaluated in the order they are written. *)
Definition hmmsearch_call_args
    (sequence : in_artifact) (ref_databases : database_artifact)
    (msa : in_artifact) (template_db mmcif_db obsolete_db : string)
    (max_template_date : string) (max_template_hits : Z)
    (out : hmmsearch_outputs) : result hmmsearch_args :=
  let mount_path := db_uri ref_databases in
  and_then (subscript (in_metadata msa) "data_format") (fun data_format =>
  and_then (subscript (db_metadata ref_databases) template_db) (fun t =>
  and_then (subscript (db_metadata ref_databases) mmcif_db) (fun m =>
  and_then (subscript (db_metadata ref_databases) obsolete_db) (fun o =>
  Ok (HmmsearchArgs
        (hs_artifact_path hlib (in_uri sequence))
        (hs_artifact_path hlib (in_uri msa))
        data_format
        (PyStr.path_join mount_path t)
        (PyStr.path_join mount_path m)
        (PyStr.path_join mount_path o)
        max_template_date max_template_hits
        (hs_artifact_path hlib (uri (template_hits out)))
        (hs_artifact_path hlib (uri (template_features out)))))))).

Definition hmmsearch
    (sequence : in_artifact) (ref_databases : database_artifact)
    (msa : in_artifact) (template_db mmcif_db obsolete_db : string)
    (max_template_date : string) (max_template_hits : Z)
    (out : hmmsearch_outputs) : result unit * hmmsearch_outputs :=
  match
    and_then
      (hmmsearch_call_args sequence ref_databases msa template_db mmcif_db
         obsolete_db max_template_date max_template_hits out)
      (run_hmmsearch hlib)
  with
  | Raise e => (Raise e, out)
  | Ok hits =>
      (Ok tt,
       HmmsearchOutputs
         (Artifact (uri (template_hits out))
            (<["tool" := MStr "hmmearch"]>
               (<["data_format" := MStr "sto"]>
                  (<["num_hits" := MInt (Z.of_nat (length hits))]>
                     (<["category" := MStr "msa"]>
                        (metadata (template_hits out)))))))
         (Artifact (uri (template_features out))
            (<["data_format" := MStr "pkl"]>
               (<["category" := MStr "features"]>
                  (metadata (template_features out))))))
  end.

End Hmmsearch.

(** ** A reference library

  The AlphaFold routines and the serialiser live outside the repository.
  To run the component on concrete inputs they are given here the behaviour
  the design document states for them, nothing more. *)

Module SpecLib.

(** Modelled from the spec: the serialiser ([pickle]), which is not part of
    the repository; "serialization is lossless for the supported
    numeric/array field types", so a stored object is identified with the
    record it holds. *)
Definition bytes : Type := feature_dict.

Definition spec_pickle_load (content : bytes) : result feature_dict :=
  Ok content.

Definition spec_pickle_dump (r : feature_dict) : result bytes := Ok r.

Definition code_of (c : ascii) : Z := Z.of_nat (nat_of_ascii c).

(** Modelled from the spec: [convert_monomer_features] of the AlphaFold
    library, which is not part of the repository; it "produces a record
    with multimer-required fields populated deterministically from
    single-chain fields and a stable chain identifier". *)
Definition spec_convert_monomer_features (monomer_features : feature_dict)
    (cid : string) : result feature_dict :=
  Ok (dict_set "auth_chain_id" [code_of <$> list_ascii_of_string cid]
               monomer_features).

Definition same_sequence (r1 r2 : feature_dict) : bool :=
  bool_decide (dict_get "aatype" r1 = dict_get "aatype" r2).

(** The identifiers of a chain that comes after the chains [before]:
    its position, the position of the first chain with its sequence, and
    its rank among the chains with its sequence. *)
Definition annotate (before : list feature_dict) (r : feature_dict)
  : feature_dict :=
  let asym := S (length before) in
  let entity :=
    S (default (length before)
               (fst <$> list_find (fun r' => same_sequence r r' = true)
                                  before)) in
  let sym :=
    S (length (filter (fun r' => same_sequence r r' = true) before)) in
  dict_set "sym_id" [[Z.of_nat sym]]
    (dict_set "entity_id" [[Z.of_nat entity]]
       (dict_set "asym_id" [[Z.of_nat asym]] r)).

Fixpoint annotate_all (before : list feature_dict)
    (rest : chain_features_dict) : chain_features_dict :=
  match rest with
  | [] => []
  | (cid, r) :: more =>
      (cid, annotate before r) :: annotate_all (before ++ [r]) more
  end.

(** Modelled from the spec: [add_assembly_features] of the AlphaFold
    library, which is not part of the repository; "given the set of
    per-chain converted records, returns the same set annotated with
    cross-chain identifiers (assembly index, entity index, copy count)". *)
Definition spec_add_assembly_features (all_chain_features : chain_features_dict)
  : result chain_features_dict :=
  Ok (annotate_all [] all_chain_features).

Definition width (a : ndarray) : nat := length (hd [] a).

(** Two arrays side by side; the shorter one is continued with zero rows. *)
Definition hcat (a b : ndarray) : ndarray :=
  (fun i => nth i a (replicate (width a) 0%Z)
            ++ nth i b (replicate (width b) 0%Z))
    <$> seq 0 (max (length a) (length b)).

Definition merge_field (all_chain_features : chain_features_dict)
    (name : string) : ndarray :=
  foldl (fun acc cr => hcat acc (default [] (dict_get name cr.2)))
        [] all_chain_features.

(** Modelled from the spec: [pair_and_merge] of the AlphaFold library,
    which is not part of the repository; it "aligns chains with matching
    sequence via their alignments, concatenates per-chain fields along the
    appropriate axis, and returns one combined record". *)
Definition spec_pair_and_merge (all_chain_features : chain_features_dict)
  : result feature_dict :=
  match all_chain_features with
  | [] => Raise (ValueError "no chains to merge")
  | (_, first) :: _ =>
      Ok ((fun name => (name, merge_field all_chain_features name))
            <$> dict_keys first)
  end.

(** Rows cut or zero rows added, to [n] rows. *)
Definition resize_rows (n : nat) (a : ndarray) : ndarray :=
  take n (a ++ replicate n (replicate (width a) 0%Z)).

(** Modelled from the spec: [pad_msa] of the AlphaFold library, which is
    not part of the repository; it pads "the combined alignment dimension
    to a fixed maximum depth", "truncating or zero-filling as required". *)
Definition spec_pad_msa (np_example : feature_dict) (n : nat)
  : result feature_dict :=
  match dict_get "msa" np_example with
  | None => Raise (OtherError "KeyError" "'msa'")
  | Some msa => Ok (dict_set "msa" (resize_rows n msa) np_example)
  end.

Definition spec_lib : library bytes :=
  Library bytes spec_pickle_load spec_pickle_dump
          spec_convert_monomer_features spec_add_assembly_features
          spec_pair_and_merge spec_pad_msa.

End SpecLib.

(** ** Vocabulary of the statements *)

(** A storage path of the form [gs://bucket/rest]. *)

Definition gs_path (bucket rest path : string) : Prop :=
  path = gs_uri bucket rest
  /\ PyStr.occurs "/" bucket = false
  /\ PyStr.occurs "gs://" (bucket +:+ "/" +:+ rest) = false.

(** The state after some more calls. *)
Definition with_events {bytes} (w : world bytes) (evs : list event)
  : world bytes :=
  World (gcs w) (gcs_upload_fault w) (features w) (trace w ++ evs).

(** The calls a chain's fetch makes when it goes through. *)
Definition chain_events (paths : paths_info) (cd : chain_data) : list event :=
  match chains paths !! chain_id cd with
  | None => []
  | Some p =>
      [EvExists (chain_location p).1 (chain_location p).2;
       EvDownload (chain_location p).1 (chain_location p).2;
       EvConvert (chain_id cd)]
  end.

(** Calls into the AlphaFold library. *)
Definition is_library_call (ev : event) : Prop :=
  match ev with
  | EvConvert _ | EvAssembly | EvPairAndMerge | EvPadMsa _ => True
  | _ => False
  end.

(** Calls that only read the store or compute. *)
Definition is_read (ev : event) : Prop :=
  match ev with
  | EvExists _ _ | EvDownload _ _ | EvConvert _ => True
  | _ => False
  end.

(** The text of the two errors the loop raises itself. *)
Definition no_path_message (cid : string) : string :=
  "No path information found for chain " +:+ cid.

Definition not_found_message (cid features_path : string) : string :=
  "Features file not found in GCS for chain " +:+ cid +:+ ": gs://"
  +:+ (chain_location features_path).1 +:+ "/"
  +:+ (chain_location features_path).2.

Definition save_failed_message (output_features_path : string) (e : exn)
  : string :=
  "Failed to save features to GCS at " +:+ output_features_path +:+ ": "
  +:+ str_of_exn e.

Section Vocabulary.
Context {bytes : Type}.
Variable lib : library bytes.
Implicit Types (w : world bytes) (paths : paths_info).

(** The loop reads the store and computes; it writes nothing. *)
Definition only_reads w w' : Prop :=
  gcs w' = gcs w /\ gcs_upload_fault w' = gcs_upload_fault w
  /\ features w' = features w
  /\ exists evs, trace w' = trace w ++ evs /\ Forall is_read evs.

(** What the fetch of a chain needs to go through: an entry in the
    manifest, the object in the store, and a record that loads and
    converts. *)
Definition fetched paths (store : gmap (string * string) bytes)
    (cd : chain_data) (conv : feature_dict) : Prop :=
  exists p content raw,
    chains paths !! chain_id cd = Some p
    /\ store !! chain_location p = Some content
    /\ pickle_load lib content = Ok raw
    /\ convert_monomer_features lib raw (chain_id cd) = Ok conv.

(** The two branches: what [np_example] is, and which calls are made. *)
Definition merged (flag : string) (assembled : chain_features_dict)
    (np : feature_dict) : Prop :=
  if single_chain_case flag assembled
  then exists key, assembled = [(key, np)]
  else exists m, pair_and_merge lib assembled = Ok m
                 /\ pad_msa lib m 512 = Ok np.

Definition merge_events (flag : string) (assembled : chain_features_dict)
  : list event :=
  if single_chain_case flag assembled then []
  else [EvPairAndMerge; EvPadMsa 512].

(** What the design states of [add_assembly_features]: it "returns the same
set", annotated; in particular as many records as it was given. *)
Definition assembly_keeps_chains : Prop :=
  forall all all',
    add_assembly_features lib all = Ok all' -> length all' = length all.

(** What the design states of [pad_msa]: the alignment depth of its result
is the depth asked for, "truncating or zero-filling as required". *)
Definition pads_to_depth : Prop :=
  forall r n r', pad_msa lib r n = Ok r' -> msa_depth r' = Some n.

End Vocabulary.

(** The artifact a run reports: the destination and the two metadata
fields. *)
Definition reported (output_features_path flag : string) (num_chains : nat)
  : artifact :=
  Artifact
    (PyStr.path_join output_features_path "all_chain_features.pkl")
    {[ "is_homomer_or_monomer" := MStr flag;
       "num_chains" := MInt (Z.of_nat num_chains) ]}.

(** ** Inputs for the worked runs *)

Module Demo.
Import SpecLib.

(** Chain [A]: three residues, alignment depth 10. *)
Definition chainA : feature_dict :=
  [("aatype", [[1; 2; 3]%Z]); ("msa", replicate 10 [1; 2; 3]%Z)].

(** Chain [B]: two residues, alignment depth 8. *)
Definition chainB : feature_dict :=
  [("aatype", [[4; 5]%Z]); ("msa", replicate 8 [4; 5]%Z)].

Definition store_AB : gmap (string * string) bytes :=
  {[ ("bkt", "run1/A/features.pkl") := chainA;
     ("bkt", "run1/B/features.pkl") := chainB ]}.

Definition fresh_artifact : artifact :=
  Artifact "gs://pipeline-root/features" ∅.

(** Both chains stored, uploads accepted. *)
Definition world_AB : world bytes :=
  World store_AB (fun _ _ => None) fresh_artifact [].

(** Both chains stored, uploads refused. *)
Definition world_refusing : world bytes :=
  World store_AB (fun _ _ => Some (OtherError "Forbidden" "403 access denied"))
        fresh_artifact [].

(** Nothing stored. *)
Definition world_empty : world bytes :=
  World ∅ (fun _ _ => None) fresh_artifact [].

Definition manifest_AB : paths_info :=
  PathsInfo {[ "A" := "gs://bkt/run1/A"; "B" := "gs://bkt/run1/B" ]}
            (Some "gs://bkt/run1/full").

Definition manifest_none : paths_info := PathsInfo ∅ None.

(** The manifest without an entry for [B]. *)
Definition manifest_A : paths_info :=
  PathsInfo {[ "A" := "gs://bkt/run1/A" ]} None.

(** Only chain [A] stored. *)
Definition world_A : world bytes :=
  World {[ ("bkt", "run1/A/features.pkl") := chainA ]} (fun _ _ => None)
        fresh_artifact [].

Definition A : chain_data := ChainData "A".
Definition B : chain_data := ChainData "B".

(** The outcome of a call that does not raise. *)
Definition value_of {T} (r : result T) (default : T) : T :=
  match r with Ok a => a | Raise _ => default end.

(** The two chains, as the component holds them after its loop, after
[add_assembly_features], after [pair_and_merge] and after [pad_msa]. *)
Definition loaded_AB : chain_features_dict :=
  [("A", value_of (spec_convert_monomer_features chainA "A") []);
   ("B", value_of (spec_convert_monomer_features chainB "B") [])].

Definition assembled_AB : chain_features_dict :=
  value_of (spec_add_assembly_features loaded_AB) [].

Definition merged_AB : feature_dict :=
  value_of (spec_pair_and_merge assembled_AB) [].

Definition padded_AB : feature_dict :=
  value_of (spec_pad_msa merged_AB 512) [].

(** Chain [A] alone. *)
Definition loaded_A : chain_features_dict :=
  [("A", value_of (spec_convert_monomer_features chainA "A") [])].

Definition assembled_A : chain_features_dict :=
  value_of (spec_add_assembly_features loaded_A) [].

(** The runs. *)
Definition run_AB :=
  aggregate_features_across_chains spec_lib manifest_AB [A; B] "false"
    "gs://bkt/default" world_AB.

Definition run_A (flag : string) :=
  aggregate_features_across_chains spec_lib manifest_AB [A] flag
    "gs://bkt/default" world_AB.

Definition run_AB_refused :=
  aggregate_features_across_chains spec_lib manifest_AB [A; B] "false"
    "gs://bkt/default" world_refusing.

Definition run_no_manifest :=
  aggregate_features_across_chains spec_lib manifest_none [A; B] "false"
    "gs://bkt/default" world_AB.

Definition run_B_unlisted :=
  aggregate_features_across_chains spec_lib manifest_A [A; B] "false"
    "gs://bkt/default" world_AB.

Definition run_nothing_stored :=
  aggregate_features_across_chains spec_lib manifest_AB [A; B] "false"
    "gs://bkt/default" world_empty.

Definition run_B_not_stored :=
  aggregate_features_across_chains spec_lib manifest_AB [A; B] "false"
    "gs://bkt/default" world_A.

End Demo.

(** ** A library that pads up to a minimum *)

Module PadOnlyLib.
Import SpecLib.

(** [k] rows of zeros below an array. *)
Definition add_rows (k : nat) (a : ndarray) : ndarray :=
  a ++ replicate k (replicate (width a) 0%Z).

(** The fields that run along the alignment. *)
Definition alignment_fields : list string :=
  ["msa"; "deletion_matrix"; "bert_mask"; "msa_mask"; "cluster_bias_mask"].

(** A [pad_msa] that takes the depth it is given as a minimum, as the
  routine of the AlphaFold library does (its code is not part of the
  repository): an alignment with fewer rows gets rows of zeros, in every
  field that runs along it; an alignment that has the rows is returned as
  it is, however deep. *)
Definition pad_only_msa (np_example : feature_dict) (min_num_seq : nat)
  : result feature_dict :=
  match dict_get "msa" np_example with
  | None => Raise (OtherError "KeyError" (py_repr "msa"))
  | Some msa =>
      let num_seq := length msa in
      if num_seq <? min_num_seq then
        foldl (fun acc feat =>
                 match acc with
                 | Raise e => Raise e
                 | Ok r =>
                     match dict_get feat r with
                     | None => Raise (OtherError "KeyError" (py_repr feat))
                     | Some a =>
                         Ok (dict_set feat (add_rows (min_num_seq - num_seq) a)
                                      r)
                     end
                 end)
              (Ok np_example) alignment_fields
      else Ok np_example
  end.

(** The reference library with this [pad_msa]. *)
Definition pad_only_lib : library bytes :=
  Library bytes spec_pickle_load spec_pickle_dump
          spec_convert_monomer_features spec_add_assembly_features
          spec_pair_and_merge pad_only_msa.

End PadOnlyLib.

(** ** Inputs off the beaten track *)

Module DemoEdge.
Import SpecLib PadOnlyLib Demo.

(** Chain [D]: two residues, alignment depth 600. *)
Definition chainD : feature_dict :=
  [("aatype", [[4; 5]%Z]); ("msa", replicate 600 [4; 5]%Z)].

Definition D : chain_data := ChainData "D".

Definition manifest_AD : paths_info :=
  PathsInfo {[ "A" := "gs://bkt/run1/A"; "D" := "gs://bkt/run1/D" ]}
            (Some "gs://bkt/run1/full").

Definition world_AD : world bytes :=
  World {[ ("bkt", "run1/A/features.pkl") := chainA;
           ("bkt", "run1/D/features.pkl") := chainD ]}
        (fun _ _ => None) fresh_artifact [].

(** Two chains, one of them deep, with the library that pads up to a
  minimum. *)
Definition run_AD :=
  aggregate_features_across_chains pad_only_lib manifest_AD [A; D] "false"
    "gs://bkt/default" world_AD.

(** The record [run_AD] stores. *)
Definition stored_AD : feature_dict :=
  default [] (gcs run_AD.2 !! ("bkt", "run1/full/all_chain_features.pkl")).

(** A manifest whose prefix for chain [A] is a bucket and nothing else. *)
Definition manifest_bucket_only : paths_info :=
  PathsInfo {[ "A" := "gs://bkt" ]} None.

(** A bucket that holds the record of chain [B] under [features.pkl] and
  the record of chain [A] under [/features.pkl]. *)
Definition world_bucket_only : world bytes :=
  World {[ ("bkt", "features.pkl") := chainB;
           ("bkt", "/features.pkl") := chainA ]}
        (fun _ _ => None) fresh_artifact [].

Definition run_bucket_only :=
  aggregate_features_across_chains spec_lib manifest_bucket_only [A] "true"
    "gs://bkt/out" world_bucket_only.

End DemoEdge.

(** An upload, as a test. *)
Definition is_upload (ev : event) : bool :=
  match ev with
  | EvUpload _ _ => true
  | _ => false
  end.

(** The identifiers of a list, each once, in the order they first appear. *)
Definition first_seen (ids : list string) : list string :=
  foldl (fun seen k => if decide (k ∈ seen) then seen else seen ++ [k])
        [] ids.

(** The ways a run can end, seen from outside: with an error, the store and
  the artifact as they were and at most one upload, refused; or with the
  object stored at the destination after one upload. *)
Definition run_outcome {bytes} (dest : string * string)
    (w : world bytes) (r : result unit) (w' : world bytes) : Prop :=
  exists reads calls,
    Forall is_read reads /\ Forall is_library_call calls
    /\ ((exists e, r = Raise e)
        /\ gcs w' = gcs w /\ features w' = features w
        /\ (trace w' = trace w ++ reads ++ calls
            \/ trace w' = trace w ++ reads ++ calls
                          ++ [EvUpload dest.1 dest.2])
        \/ r = Ok tt
           /\ (exists stored, gcs w' = <[dest := stored]> (gcs w))
           /\ trace w' = trace w ++ reads ++ calls
                         ++ [EvUpload dest.1 dest.2]).


(** Cases on the comparisons of the characters of a scheme with the
  characters of a string, given the equations of [+:+] on a character and
  on the empty string and of [String.prefix] on two characters. *)
Ltac scheme_cases app_cons_eq app_empty_eq prefix_cons_eq :=
  rewrite ?app_cons_eq, ?app_empty_eq, ?prefix_cons_eq;
  repeat match goal with
         | |- context [Ascii.eqb ?a ?c] =>
             is_var c; destruct (Ascii.eqb_spec a c); subst
         end;
  cbn [andb]; try done.

(** ** More concrete inputs: the chain list, the prediction, the search *)

Module DemoMore.
Import SpecLib Demo.

(** Chain [A] listed twice, around chain [B]. *)
Definition run_ABA_loop :=
  load_chains spec_lib manifest_AB [] [A; B; A] world_AB.

(** No chain listed, the flag set. *)
Definition run_no_chains :=
  aggregate_features_across_chains spec_lib manifest_AB [] "true"
    "gs://bkt/default" world_AB.

(** Chain [B] without an entry, between two mentions of chain [A]. *)
Definition run_ABA_unlisted :=
  aggregate_features_across_chains spec_lib manifest_A [A; B; A] "false"
    "gs://bkt/default" world_AB.

(** The state after the fetch of chain [A]. *)
Definition world_after_A : world bytes :=
  with_events world_AB (chain_events manifest_A A).

(** The local path of an artifact: the store is mounted under [/gcs/]. *)
Definition mounted (uri : string) : string :=
  if String.prefix "gs://" uri
  then "/gcs/" +:+ String.substring 5 (String.length uri - 5) uri
  else uri.

(** A model that reads the features file, writes its two outputs at the
  paths it is given and returns a fixed confidence. *)
Definition model (args : predict_args) (around : surroundings bytes)
  : result (gmap string pvalue) * surroundings bytes :=
  match sur_files around !! model_features_path args with
  | Some features_read =>
      (Ok {[ "ranking_confidence" := PFloat 4635400285215260672 ]},
       Surroundings (sur_store around)
         (<[unrelaxed_protein_path args := features_read]>
            (<[raw_prediction_path args := features_read]>
               (sur_files around)))
         (sur_environ around))
  | None =>
      (Raise (OtherError "FileNotFoundError" (model_features_path args)),
       around)
  end.

Definition demo_plib : predict_library bytes :=
  {| artifact_path := mounted;
     temp_file_name := "/tmp/tmpk3x9features";
     download_error := fun b k => OtherError "NotFound" (gs_uri b k);
     failed_download_file := None;
     alphafold_predict := model |}.

Definition fresh_raw_prediction : out_artifact :=
  OutArtifact "gs://pipeline-root/raw_prediction" ∅.

Definition fresh_unrelaxed_protein : out_artifact :=
  OutArtifact "gs://pipeline-root/unrelaxed_protein" ∅.

(** The store as the aggregation of [A] and [B] left it; no local file. *)
Definition predict_world_AB : predict_world bytes :=
  PredictWorld (gcs run_AB.2) ∅ ∅ fresh_raw_prediction
    fresh_unrelaxed_protein [].

(** The same, with the merged record in a local file. *)
Definition predict_world_local : predict_world bytes :=
  PredictWorld (gcs run_AB.2)
    {[ "/mnt/features/all_chain_features.pkl" := padded_AB ]} ∅
    fresh_raw_prediction fresh_unrelaxed_protein [].

Definition predict_from (model_features_uri : string)
    (w : predict_world bytes) :=
  predict demo_plib model_features_uri "gs://bkt/params/model_1"
    "model_1_multimer_v3" 0 1 true 42 "1" "4.0" w.

(** The prediction on the features the aggregation reported. *)
Definition predict_AB :=
  predict_from (uri (features run_AB.2)) predict_world_AB.

(** The prediction on features that are not in the store. *)
Definition predict_missing :=
  predict_from "gs://bkt/run1/none/all_chain_features.pkl" predict_world_AB.

(** The prediction on a local file that is there, and on one that is
  not. *)
Definition predict_local :=
  predict_from "/mnt/features/all_chain_features.pkl" predict_world_local.

Definition predict_local_missing :=
  predict_from "/mnt/features/all_chain_features.pkl" predict_world_AB.

(** A search tool that finds three hits. *)
Definition demo_hlib : hmmsearch_library :=
  HmmsearchLibrary mounted (fun _ => Ok ["hit 1"; "hit 2"; "hit 3"]).

(** The databases under a mount point; the mmCIF files are given by an
  absolute path. *)
Definition databases : database_artifact :=
  DatabaseArtifact "/mnt/nfs/alphafold"
    {[ "pdb_seqres" := "pdb_seqres/pdb_seqres.txt";
       "pdb_mmcif" := "/data/pdb_mmcif/mmcif_files";
       "pdb_obsolete" := "pdb_mmcif/obsolete.dat" ]}.

(** The same without the list of obsolete entries. *)
Definition databases_no_obsolete : database_artifact :=
  DatabaseArtifact "/mnt/nfs/alphafold"
    {[ "pdb_seqres" := "pdb_seqres/pdb_seqres.txt";
       "pdb_mmcif" := "/data/pdb_mmcif/mmcif_files" ]}.

Definition sequence : in_artifact :=
  InArtifact "gs://pipeline-root/sequence" ∅.

Definition alignment : in_artifact :=
  InArtifact "gs://pipeline-root/msa" {[ "data_format" := MStr "sto" ]}.

Definition fresh_outputs : hmmsearch_outputs :=
  HmmsearchOutputs
    (Artifact "gs://pipeline-root/template_hits" {[ "run" := MStr "r1" ]})
    (Artifact "gs://pipeline-root/template_features" ∅).

Definition search_args : hmmsearch_args :=
  HmmsearchArgs "/gcs/pipeline-root/sequence" "/gcs/pipeline-root/msa"
    (MStr "sto") "/mnt/nfs/alphafold/pdb_seqres/pdb_seqres.txt"
    "/data/pdb_mmcif/mmcif_files" "/mnt/nfs/alphafold/pdb_mmcif/obsolete.dat"
    "2022-01-01" 20 "/gcs/pipeline-root/template_hits"
    "/gcs/pipeline-root/template_features".

Definition search :=
  hmmsearch demo_hlib sequence databases alignment "pdb_seqres" "pdb_mmcif"
    "pdb_obsolete" "2022-01-01" 20 fresh_outputs.

Definition search_no_obsolete :=
  hmmsearch demo_hlib sequence databases_no_obsolete alignment "pdb_seqres"
    "pdb_mmcif" "pdb_obsolete" "2022-01-01" 20 fresh_outputs.

End DemoMore.

(** Membership in a list of events that is written out. *)
Ltac list_mem :=
  rewrite ?not_elem_of_cons, ?elem_of_cons, ?elem_of_nil;
  intuition (congruence || discriminate).

(** ** Worked values of the string operations *)

Example bucket_of_ex : bucket_of "gs://bkt/run1/chains/A" = "bkt".
Proof. reflexivity. Qed.

Example prefix_of_ex : prefix_of "gs://bkt/run1/chains/A" = "run1/chains/A".
Proof. reflexivity. Qed.

Example prefix_of_bucket_only : prefix_of "gs://bkt" = EmptyString.
Proof. reflexivity. Qed.

(** A prefix with nothing behind the bucket: the object name starts with
  the separator. *)
Example chain_location_bucket_only :
  chain_location "gs://bkt" = ("bkt", "/features.pkl").
Proof. reflexivity. Qed.

Example path_join_ex :
  PyStr.path_join "run1/full" "all_chain_features.pkl"
  = "run1/full/all_chain_features.pkl"
  /\ PyStr.path_join EmptyString "all_chain_features.pkl" = "all_chain_features.pkl"
  /\ PyStr.path_join "run1/" "all_chain_features.pkl"
     = "run1/all_chain_features.pkl".
Proof. repeat split. Qed.

(** ** Facts about the string operations *)

Module PyStrFacts.
Import PyStr.

Lemma app_cons c s t : String c s +:+ t = String c (s +:+ t).
Proof. reflexivity. Qed.

Lemma app_empty_l s : EmptyString +:+ s = s.
Proof. reflexivity. Qed.

Lemma app_empty_r s : s +:+ EmptyString = s.
Proof. induction s as [|c s IH]; [done|]. by rewrite app_cons, IH. Qed.

Lemma app_assoc s t u : (s +:+ t) +:+ u = s +:+ t +:+ u.
Proof. induction s as [|c s IH]; [done|]. by rewrite !app_cons, IH. Qed.

Lemma occurs_cons old c s :
  occurs old (String c s) = String.prefix old (String c s) || occurs old s.
Proof. reflexivity. Qed.

(** Nothing to replace, nothing changes. *)
Lemma replace_absent old new s :
  occurs old s = false -> replace old new s = s.
Proof.
    unfold replace. induction s as [|c s IH]; [done|].
    rewrite occurs_cons. intros [Hp Hs]%orb_false_elim.
    cbn [replace_from]. rewrite Hp. f_equal. auto.
Qed.

Lemma replace_from_skip old new pre s :
  replace_from old new (String.length pre) (pre +:+ s)
  = replace_from old new 0 s.
Proof. induction pre as [|c pre IH]; [done|]. rewrite app_cons. apply IH. Qed.

Lemma prefix_app old s : String.prefix old (old +:+ s) = true.
Proof.
    induction old as [|c old IH]; [by destruct s|].
    rewrite app_cons. cbn. destruct (ascii_dec c c); [done|congruence].
Qed.

(** A leading occurrence is removed, and the scan goes on behind it. *)
Lemma replace_leading c old new s :
  replace (String c old) new (String c old +:+ s)
  = new +:+ replace (String c old) new s.
Proof.
    unfold replace. rewrite app_cons. cbn [replace_from].
    rewrite <- app_cons, prefix_app. f_equal.
    cbn [String.length]. rewrite Nat.sub_1_r. cbn [Nat.pred].
    apply replace_from_skip.
Qed.

Lemma split_nonempty sep s : split sep s <> [].
Proof.
    destruct s as [|c s]; [done|]. cbn.
    destruct (Ascii.eqb c sep); [done|]. by destruct (split sep s).
Qed.

(** The piece before the first separator. *)
Lemma split_first sep b rest :
  occurs (String sep EmptyString) b = false ->
  split sep (b +:+ String sep rest) = b :: split sep rest.
Proof.
    induction b as [|c b IH].
    - intros _. rewrite app_empty_l. cbn. by rewrite Ascii.eqb_refl.
    - rewrite occurs_cons. intros [Hp Hb]%orb_false_elim.
      rewrite app_cons. cbn [split].
      assert (Ascii.eqb c sep = false) as ->.
      { apply Ascii.eqb_neq. intros ->. cbn in Hp.
        destruct (ascii_dec sep sep); [by destruct b|congruence]. }
      by rewrite IH.
Qed.

Lemma join_cons sep p ps :
  ps <> [] -> join sep (p :: ps) = p +:+ sep +:+ join sep ps.
Proof. by destruct ps. Qed.

(** Joining the pieces with the separator gives the string back. *)
Lemma join_split sep s : join (String sep EmptyString) (split sep s) = s.
Proof.
    induction s as [|c s IH]; [done|]. cbn [split].
    pose proof (split_nonempty sep s) as Hne.
    destruct (Ascii.eqb_spec c sep) as [->|Hc].
    - by rewrite join_cons, IH.
    - destruct (split sep s) as [|p ps]; [done|].
      destruct ps as [|q ps]; [by cbn in *; rewrite IH|].
      rewrite join_cons in IH |- * by done.
      by rewrite app_cons, IH.
Qed.

Lemma ends_with_app c s t :
  t <> EmptyString -> ends_with c (s +:+ t) = ends_with c t.
Proof.
    intros Ht. induction s as [|d s IH]; [done|].
    rewrite app_cons. cbn [ends_with]. rewrite IH.
    destruct (s +:+ t) eqn:E; [|done].
    destruct s; [by rewrite app_empty_l in E|by rewrite app_cons in E].
Qed.

(** Without a trailing separator, [path_join] puts exactly one in. *)
Lemma path_join_plain a b :
  a <> EmptyString -> ends_with "/" a = false ->
  String.prefix "/" b = false ->
  path_join a b = a +:+ "/" +:+ b.
Proof.
    intros Ha He Hb. unfold path_join. rewrite Hb, He.
    by destruct a.
Qed.

Lemma occurs_unfold old s :
  occurs old s
  = String.prefix old s
    || match s with EmptyString => false | String _ rest => occurs old rest end.
Proof. by destruct s. Qed.

Lemma occurs_here old s : occurs old (old +:+ s) = true.
Proof. by rewrite occurs_unfold, prefix_app. Qed.

Lemma occurs_behind pre old s :
  occurs old s = true -> occurs old (pre +:+ s) = true.
Proof.
  intros Hs. induction pre as [|c pre IH]; [done|].
  rewrite app_cons, occurs_cons, IH. apply orb_true_r.
Qed.

Lemma occurs_refl s : occurs s s = true.
Proof.
  rewrite occurs_unfold. rewrite <- (app_empty_r s) at 2.
  by rewrite prefix_app.
Qed.

End PyStrFacts.

Section Locations.
Import PyStr PyStrFacts.
Variables bucket rest path : string.
Hypothesis Hpath : gs_path bucket rest path.

Lemma strip_scheme :
  replace "gs://" EmptyString path = bucket +:+ "/" +:+ rest.
Proof.
    destruct Hpath as (-> & _ & Hno). unfold gs_uri.
    rewrite replace_leading, app_empty_l. by apply replace_absent.
Qed.

Lemma bucket_of_gs_path : bucket_of path = bucket.
Proof.
    unfold bucket_of. rewrite strip_scheme.
    destruct Hpath as (_ & Hb & _).
    change ("/" +:+ rest) with (String "/" rest).
    by rewrite (split_first "/" bucket rest Hb).
Qed.

Lemma prefix_of_gs_path : prefix_of path = rest.
Proof.
    unfold prefix_of. rewrite strip_scheme.
    destruct Hpath as (_ & Hb & _).
    change ("/" +:+ rest) with (String "/" rest).
    rewrite (split_first "/" bucket rest Hb). cbn [tl].
    apply join_split.
Qed.

(** A chain's record is read at [<chain-prefix>/features.pkl]. *)
Lemma chain_location_gs_path :
  chain_location path = (bucket, rest +:+ "/features.pkl")
  /\ gs_uri bucket (rest +:+ "/features.pkl") = path +:+ "/features.pkl".
Proof.
    unfold chain_location. rewrite bucket_of_gs_path, prefix_of_gs_path.
    split; [done|]. destruct Hpath as (-> & _). unfold gs_uri.
    by rewrite !app_assoc.
Qed.

(** The merged record is written where [os.path.join] of the output
    prefix and the file name points. *)
Lemma output_location_gs_path :
  output_location path
  = (bucket, path_join rest "all_chain_features.pkl")
  /\ gs_uri bucket (path_join rest "all_chain_features.pkl")
     = path_join path "all_chain_features.pkl".
Proof.
    unfold output_location. rewrite bucket_of_gs_path, prefix_of_gs_path.
    split; [done|]. destruct Hpath as (-> & _).
    unfold path_join, gs_uri. cbn [String.prefix ascii_dec].
    change (String.prefix "/" "all_chain_features.pkl") with false.
    cbv iota.
    destruct rest as [|c r] eqn:Er.
    - cbn [String.eqb orb]. rewrite app_empty_l.
      replace ("gs://" +:+ bucket +:+ "/" +:+ EmptyString)
        with (("gs://" +:+ bucket) +:+ "/")
        by (by rewrite app_assoc, app_empty_r).
      rewrite ends_with_app by done. cbn. by rewrite !app_assoc.
    - replace ("gs://" +:+ bucket +:+ "/" +:+ String c r)
        with (("gs://" +:+ bucket +:+ "/") +:+ String c r)
        by (by rewrite !app_assoc).
      rewrite ends_with_app by done.
      cbn [String.eqb orb].
      destruct (ends_with "/" (String c r)); by rewrite !app_assoc.
Qed.

End Locations.

(** ** Facts about dictionaries *)

Section DictFacts.
Context {V : Type}.
Implicit Types (d : list (string * V)) (k : string) (v : V).

Lemma dict_keys_set_elem k' k v d :
  k' ∈ dict_keys (dict_set k v d) <-> k' = k \/ k' ∈ dict_keys d.
Proof.
    unfold dict_keys. induction d as [|[k0 v0] d IH]; cbn [dict_set].
    - cbn. rewrite list_elem_of_singleton, elem_of_nil. tauto.
    - destruct (String.eqb_spec k0 k) as [->|Hne]; cbn;
        rewrite !elem_of_cons; [tauto|]. rewrite IH. tauto.
Qed.

Lemma dict_keys_set_NoDup k v d :
  NoDup (dict_keys d) -> NoDup (dict_keys (dict_set k v d)).
Proof.
    induction d as [|[k0 v0] d IH]; cbn [dict_set].
    - intros _. apply NoDup_singleton.
    - unfold dict_keys in *. cbn. intros [Hk0 Hd]%NoDup_cons.
      destruct (String.eqb_spec k0 k) as [->|Hne]; cbn.
      + by apply NoDup_cons.
      + apply NoDup_cons. split; [|auto].
        intros [?|?]%dict_keys_set_elem; [congruence|done].
Qed.
Lemma dict_get_set_eq k v d : dict_get k (dict_set k v d) = Some v.
Proof.
  induction d as [|[k0 v0] d IH]; cbn.
  - by rewrite String.eqb_refl.
  - destruct (String.eqb k0 k) eqn:E; cbn; by rewrite E.
Qed.

End DictFacts.

Section RunFacts.
Context {bytes : Type}.
Variable lib : library bytes.
Implicit Types (w : world bytes) (paths : paths_info).

Lemma with_events_nil w : with_events w [] = w.
Proof. destruct w. unfold with_events. cbn. by rewrite app_nil_r. Qed.

Lemma with_events_app w evs evs' :
  with_events (with_events w evs) evs' = with_events w (evs ++ evs').
Proof. unfold with_events. cbn. by rewrite app_assoc. Qed.

(** One turn of the loop, case by case. *)
Lemma load_chain_run paths acc cd w :
  load_chain lib paths acc cd w =
  match chains paths !! chain_id cd with
  | None => (Raise (ValueError (no_path_message (chain_id cd))), w)
  | Some p =>
      let b := (chain_location p).1 in
      let k := (chain_location p).2 in
      match gcs w !! chain_location p with
      | None =>
          (Raise (FileNotFoundError (not_found_message (chain_id cd) p)),
           with_events w [EvExists b k])
      | Some content =>
          match pickle_load lib content with
          | Raise e => (Raise e, with_events w [EvExists b k; EvDownload b k])
          | Ok raw =>
              match convert_monomer_features lib raw (chain_id cd) with
              | Raise e => (Raise e, with_events w (chain_events paths cd))
              | Ok conv =>
                  (Ok (dict_set (chain_id cd) conv acc),
                   with_events w (chain_events paths cd))
              end
          end
      end
  end.
Proof.
    unfold load_chain, chain_events.
    destruct (chains paths !! chain_id cd) as [p|]; [|done].
    destruct (chain_location p) as [b k] eqn:Eloc. cbn [fst snd].
    destruct w as [store fault art tr].
    cbv [bind blob_exists blob_download call emit lift ret raise with_events
         gcs trace features gcs_upload_fault].
    destruct (store !! (b, k)) as [content|] eqn:Eblob.
    2:{ rewrite bool_decide_eq_false_2 by (by intros [? ?]).
        cbv [negb]. unfold not_found_message. by rewrite Eloc. }
    rewrite bool_decide_eq_true_2 by eauto. cbv [negb]. rewrite Eblob.
    destruct (pickle_load lib content) as [raw|e];
      [|by rewrite <- app_assoc].
    destruct (convert_monomer_features lib raw (chain_id cd));
      by rewrite <- !app_assoc.
Qed.

(** The choice of [np_example], case by case. *)
Lemma merge_chains_run flag all w :
  merge_chains lib flag all w =
  if single_chain_case flag all then
    match all with
    | (_, np) :: _ => (Ok np, w)
    | [] => (Raise (OtherError "StopIteration" EmptyString), w)
    end
  else
    match pair_and_merge lib all with
    | Raise e => (Raise e, with_events w [EvPairAndMerge])
    | Ok m =>
        (pad_msa lib m 512, with_events w [EvPairAndMerge; EvPadMsa 512])
    end.
Proof.
    unfold merge_chains. destruct (single_chain_case flag all).
    - by destruct all as [|[? ?] ?].
    - unfold bind, call, emit, lift. cbn.
      destruct (pair_and_merge lib all); [|done].
      by unfold with_events; cbn; rewrite <- app_assoc.
Qed.

(** Serialising and uploading, case by case. *)
Lemma save_features_run o np w :
  save_features lib o np w =
  let b := (output_location o).1 in
  let k := (output_location o).2 in
  match pickle_dump lib np with
  | Raise e => (Raise (RuntimeError (save_failed_message o e)), w)
  | Ok stored =>
      match gcs_upload_fault w b k with
      | Some e =>
          (Raise (RuntimeError (save_failed_message o e)),
           with_events w [EvUpload b k])
      | None =>
          (Ok tt,
           World (<[output_location o := stored]> (gcs w))
                 (gcs_upload_fault w) (features w)
                 (trace w ++ [EvUpload b k]))
      end
  end.
Proof.
    unfold save_features. destruct (output_location o) as [b k]. cbn [fst snd].
    unfold try_except, bind, lift, blob_upload, emit, raise. cbn.
    destruct (pickle_dump lib np); [|done].
    by destruct (gcs_upload_fault w b k).
Qed.

(** The whole component, phase by phase. *)
Lemma aggregate_run paths chain_info flag out w :
  aggregate_features_across_chains lib paths chain_info flag out w =
  match load_chains lib paths [] chain_info w with
  | (Raise e, w1) => (Raise e, w1)
  | (Ok loaded, w1) =>
      match add_assembly_features lib loaded with
      | Raise e => (Raise e, with_events w1 [EvAssembly])
      | Ok assembled =>
          match merge_chains lib flag assembled
                             (with_events w1 [EvAssembly]) with
          | (Raise e, w2) => (Raise e, w2)
          | (Ok np, w2) =>
              match save_features lib (effective_output paths out) np w2 with
              | (Raise e, w3) => (Raise e, w3)
              | (Ok _, w3) =>
                  (Ok tt,
                   World (gcs w3) (gcs_upload_fault w3)
                     (Artifact
                        (PyStr.path_join (effective_output paths out)
                                         "all_chain_features.pkl")
                        {[ "is_homomer_or_monomer" := MStr flag;
                           "num_chains" :=
                             MInt (Z.of_nat (length assembled)) ]})
                     (trace w3))
              end
          end
      end
  end.
Proof.
    unfold aggregate_features_across_chains, bind at 1.
    destruct (load_chains lib paths [] chain_info w) as [[loaded|e] w1];
      [|done].
    unfold bind at 1, call, bind at 1, emit, lift.
    fold (with_events w1 [EvAssembly]).
    destruct (add_assembly_features lib loaded) as [assembled|e]; [|done].
    unfold bind at 1.
    destruct (merge_chains lib flag assembled (with_events w1 [EvAssembly]))
      as [[np|e] w2]; [|done].
    unfold bind at 1.
    destruct (save_features lib (effective_output paths out) np w2)
      as [[[]|e] w3]; done.
Qed.

(** The loop over a list in two parts. *)
Lemma load_chains_app paths acc l1 l2 w :
  load_chains lib paths acc (l1 ++ l2) w =
  match load_chains lib paths acc l1 w with
  | (Ok acc', w') => load_chains lib paths acc' l2 w'
  | (Raise e, w') => (Raise e, w')
  end.
Proof.
    revert acc w. induction l1 as [|cd l1 IH]; intros acc w; [done|].
    cbn [app load_chains]. unfold bind.
    destruct (load_chain lib paths acc cd w) as [[acc'|e] w']; [|done].
    apply IH.
Qed.

Lemma only_reads_refl w : only_reads w w.
Proof.
    repeat split. exists []. by rewrite app_nil_r.
Qed.

Lemma only_reads_trans w1 w2 w3 :
  only_reads w1 w2 -> only_reads w2 w3 -> only_reads w1 w3.
Proof.
    intros (Hg & Hf & Ha & evs & Ht & Hr) (Hg' & Hf' & Ha' & evs' & Ht' & Hr').
    repeat split; [congruence..|].
    exists (evs ++ evs'). rewrite Ht', Ht, app_assoc.
    split; [done|]. by apply Forall_app.
Qed.

Lemma only_reads_events w evs : Forall is_read evs -> only_reads w (with_events w evs).
Proof. intros. repeat split. by exists evs. Qed.

Lemma chain_events_read paths cd : Forall is_read (chain_events paths cd).
Proof.
    unfold chain_events. destruct (chains paths !! chain_id cd); [|done].
    by repeat constructor.
Qed.

Lemma chains_events_read paths chain_info :
  Forall is_read (flat_map (chain_events paths) chain_info).
Proof.
  induction chain_info as [|cd l IH]; [done|].
  cbn [flat_map]. apply Forall_app. split; [apply chain_events_read|done].
Qed.

Lemma not_read_absent ev paths chain_info :
  ~ is_read ev -> ev ∉ flat_map (chain_events paths) chain_info.
Proof.
  intros Hev Hin. pose proof (chains_events_read paths chain_info) as Hr.
  rewrite Forall_forall in Hr. by apply Hr in Hin.
Qed.

Lemma load_chain_only_reads paths acc cd w r w' :
  load_chain lib paths acc cd w = (r, w') -> only_reads w w'.
Proof.
    rewrite load_chain_run. pose proof (chain_events_read paths cd) as Hev.
    destruct (chains paths !! chain_id cd) as [p|] eqn:Ep;
      [|intros [= _ <-]; apply only_reads_refl].
    cbv zeta.
    destruct (gcs w !! chain_location p) as [content|].
    2:{ intros [= _ <-]. apply only_reads_events. by repeat constructor. }
    destruct (pickle_load lib content) as [raw|e].
    2:{ intros [= _ <-]. apply only_reads_events. by repeat constructor. }
    destruct (convert_monomer_features lib raw (chain_id cd));
      intros [= _ <-]; by apply only_reads_events.
Qed.

Lemma load_chains_only_reads paths acc chain_info w r w' :
  load_chains lib paths acc chain_info w = (r, w') -> only_reads w w'.
Proof.
    revert acc w. induction chain_info as [|cd l IH]; intros acc w.
    - intros [= _ <-]. apply only_reads_refl.
    - cbn [load_chains]. unfold bind.
      destruct (load_chain lib paths acc cd w) as [[acc'|e] w1] eqn:E1.
      + intros E2. eapply only_reads_trans; [|by eapply IH].
        by eapply load_chain_only_reads.
      + intros [= _ <-]. by eapply load_chain_only_reads.
Qed.

Lemma load_chain_ok paths acc cd w acc' w' :
  load_chain lib paths acc cd w = (Ok acc', w') ->
  exists conv,
    fetched lib paths (gcs w) cd conv
    /\ acc' = dict_set (chain_id cd) conv acc
    /\ w' = with_events w (chain_events paths cd).
Proof.
    rewrite load_chain_run. unfold fetched.
    destruct (chains paths !! chain_id cd) as [p|] eqn:Ep; [|done]. cbv zeta.
    destruct (gcs w !! chain_location p) as [content|] eqn:Eb; [|done].
    destruct (pickle_load lib content) as [raw|] eqn:El; [|done].
    destruct (convert_monomer_features lib raw (chain_id cd)) as [conv|] eqn:Ec;
      [|done].
    intros [= <- <-]. exists conv. split; [|done]. by exists p, content, raw.
Qed.

Lemma load_chains_ok paths acc chain_info w loaded w' :
  load_chains lib paths acc chain_info w = (Ok loaded, w') ->
  w' = with_events w (flat_map (chain_events paths) chain_info)
  /\ Forall (fun cd => exists conv, fetched lib paths (gcs w) cd conv) chain_info
  /\ (NoDup (dict_keys acc) -> NoDup (dict_keys loaded))
  /\ (forall k, k ∈ dict_keys loaded
                <-> k ∈ dict_keys acc \/ k ∈ chain_id <$> chain_info).
Proof.
    revert acc w. induction chain_info as [|cd l IH]; intros acc w.
    - intros [= <- <-]. rewrite with_events_nil. repeat split; [done..| |].
      + by left.
      + intros [?|Hk]; [done|]. by apply elem_of_nil in Hk.
    - cbn [load_chains]. unfold bind.
      destruct (load_chain lib paths acc cd w) as [[acc1|e] w1] eqn:E1; [|done].
      apply load_chain_ok in E1 as (conv & Hf & -> & ->).
      intros (-> & Hall & Hnd & Hin)%IH. cbn [flat_map].
      rewrite with_events_app. split_and!.
      + done.
      + constructor; [by exists conv|done].
      + intros ?. by apply Hnd, dict_keys_set_NoDup.
      + intros k'. rewrite Hin, dict_keys_set_elem, fmap_cons, elem_of_cons.
        tauto.
Qed.

(** The loop keeps one record per distinct chain identifier. *)
Lemma load_chains_count paths chain_info w loaded w' :
  load_chains lib paths [] chain_info w = (Ok loaded, w') ->
  length loaded = length (remove_dups (chain_id <$> chain_info)).
Proof.
    intros (_ & _ & Hnd & Hin)%load_chains_ok.
    transitivity (length (dict_keys loaded)).
    { unfold dict_keys. by rewrite length_fmap. }
    apply Permutation_length, NoDup_Permutation.
    - apply Hnd, NoDup_nil_2.
    - apply NoDup_remove_dups.
    - intros k'. rewrite Hin, elem_of_remove_dups, elem_of_nil. tauto.
Qed.

Lemma single_chain_case_spec flag (all : chain_features_dict) :
  single_chain_case flag all = true <-> flag = "true" /\ length all = 1.
Proof.
    unfold single_chain_case.
    rewrite andb_true_iff, String.eqb_eq, Nat.eqb_eq. done.
Qed.

Lemma merge_chains_ok flag all w np w' :
  merge_chains lib flag all w = (Ok np, w') ->
  merged lib flag all np /\ w' = with_events w (merge_events flag all).
Proof.
    rewrite merge_chains_run. unfold merged, merge_events.
    destruct (single_chain_case flag all) eqn:Ecase.
    - apply single_chain_case_spec in Ecase as [_ Hlen].
      destruct all as [|[key r] [|? ?]]; try done.
      intros [= <- <-]. rewrite with_events_nil. eauto.
    - destruct (pair_and_merge lib all) as [m|]; [|done].
      intros [= Hpad <-]. eauto.
Qed.

Lemma merge_chains_merged flag all w np :
  merged lib flag all np ->
  merge_chains lib flag all w = (Ok np, with_events w (merge_events flag all)).
Proof.
  rewrite merge_chains_run. unfold merged, merge_events.
  destruct (single_chain_case flag all).
  - intros [key ->]. by rewrite with_events_nil.
  - intros (m & -> & ->). done.
Qed.

(** A run that returns: every phase went through, and the final state is
the initial one with the object stored, the artifact set and the calls
recorded. *)
Lemma aggregate_ok paths chain_info flag out w w' :
  aggregate_features_across_chains lib paths chain_info flag out w
  = (Ok tt, w') ->
  let o := effective_output paths out in
  exists loaded assembled np stored,
    load_chains lib paths [] chain_info w
    = (Ok loaded, with_events w (flat_map (chain_events paths) chain_info))
    /\ add_assembly_features lib loaded = Ok assembled
    /\ merged lib flag assembled np
    /\ pickle_dump lib np = Ok stored
    /\ gcs_upload_fault w (output_location o).1 (output_location o).2 = None
    /\ gcs w' = <[output_location o := stored]> (gcs w)
    /\ features w' = reported o flag (length assembled)
    /\ trace w' =
       trace w ++ flat_map (chain_events paths) chain_info
       ++ [EvAssembly] ++ merge_events flag assembled
       ++ [EvUpload (output_location o).1 (output_location o).2].
Proof.
  rewrite aggregate_run.
  destruct (load_chains lib paths [] chain_info w) as [[loaded|e] w1] eqn:El;
    [|done].
  pose proof El as (-> & _)%load_chains_ok.
  destruct (add_assembly_features lib loaded) as [assembled|e] eqn:Ea; [|done].
  destruct (merge_chains lib flag assembled _) as [[np|e] w2] eqn:Em; [|done].
  apply merge_chains_ok in Em as [Hm ->].
  rewrite save_features_run. cbv zeta.
  destruct (pickle_dump lib np) as [stored|e] eqn:Ed; [|done].
  cbn [gcs_upload_fault with_events].
  destruct (gcs_upload_fault w _ _) eqn:Ef; [done|].
  intros [= <-]. exists loaded, assembled, np, stored.
  split_and!; try done.
  cbn [trace with_events]. by rewrite <- !app_assoc.
Qed.

End RunFacts.

(** ** The reference library meets what the design states *)

Module SpecLibFacts.
Import SpecLib.

Lemma annotate_all_length before all :
  length (annotate_all before all) = length all.
Proof.
  revert before. induction all as [|[cid r] all IH]; intros before; [done|].
  cbn. by rewrite IH.
Qed.

Lemma spec_assembly_keeps_chains : assembly_keeps_chains spec_lib.
Proof. intros all all' [= <-]. apply annotate_all_length. Qed.

Lemma resize_rows_length n a : length (resize_rows n a) = n.
Proof.
  unfold resize_rows.
  rewrite length_take, length_app, length_replicate. lia.
Qed.

Lemma spec_pads_to_depth : pads_to_depth spec_lib.
Proof.
  intros r n r'. cbn. unfold spec_pad_msa.
  destruct (dict_get "msa" r) as [msa|]; [|done].
  intros [= <-]. unfold msa_depth.
  by rewrite dict_get_set_eq; cbn; rewrite resize_rows_length.
Qed.

End SpecLibFacts.

(** ** The claims *)

Section Claims.
Context {bytes : Type}.
Variable lib : library bytes.
Implicit Types (w : world bytes) (paths : paths_info).

(** C1.  With the flag ['true'] and exactly one chain listed, a run that
returns has written that chain's own record -- converted, and as
[add_assembly_features] hands it back -- and has called neither
[pair_and_merge] nor [pad_msa]. *)
Theorem C1_single_chain_written_unpaired paths cd out w w' :
  assembly_keeps_chains lib ->
  aggregate_features_across_chains lib paths [cd] "true" out w = (Ok tt, w') ->
  let dest := output_location (effective_output paths out) in
  exists conv key np stored,
    fetched lib paths (gcs w) cd conv
    /\ add_assembly_features lib [(chain_id cd, conv)] = Ok [(key, np)]
    /\ pickle_dump lib np = Ok stored
    /\ gcs w' = <[dest := stored]> (gcs w)
    /\ trace w' =
       trace w ++ chain_events paths cd ++ [EvAssembly; EvUpload dest.1 dest.2].
Proof.
  intros Hkeep Hrun. cbv zeta.
  apply aggregate_ok in Hrun
    as (loaded & assembled & np & stored & Hl & Ha & Hm & Hd & _ & Hg & _ & Ht).
  cbn [load_chains] in Hl. unfold bind in Hl.
  destruct (load_chain lib paths [] cd w) as [[acc|e] w1] eqn:E1; [|done].
  apply load_chain_ok in E1 as (conv & Hf & -> & ->).
  injection Hl as <- _. cbn [dict_set] in Ha.
  pose proof (Hkeep _ _ Ha) as Hlen. cbn [length] in Hlen.
  assert (single_chain_case "true" assembled = true) as Hcase
    by by apply single_chain_case_spec.
  unfold merged, merge_events in *. rewrite Hcase in *.
  destruct Hm as [key ->].
  exists conv, key, np, stored. split_and!; try done.
  rewrite Ht. cbn [flat_map]. by rewrite app_nil_r.
Qed.

(** C2.  With at least two chains listed and a flag other than ['true'], a
run that returns has paired and merged the records, has called [pad_msa]
once, on the merged record and with the constant 512, and has written the
record that call returned: the depth of what is written is the depth
[pad_msa] gives back, the component neither pads nor cuts on its own. *)
Theorem C2_multimer_merged_then_padded paths chain_info flag out w w' :
  2 <= length chain_info ->
  flag <> "true" ->
  aggregate_features_across_chains lib paths chain_info flag out w
  = (Ok tt, w') ->
  let dest := output_location (effective_output paths out) in
  exists loaded w1 assembled m np stored,
    load_chains lib paths [] chain_info w = (Ok loaded, w1)
    /\ add_assembly_features lib loaded = Ok assembled
    /\ pair_and_merge lib assembled = Ok m
    /\ pad_msa lib m 512 = Ok np
    /\ pickle_dump lib np = Ok stored
    /\ gcs w' !! dest = Some stored
    /\ trace w' =
       trace w ++ flat_map (chain_events paths) chain_info
       ++ [EvAssembly; EvPairAndMerge; EvPadMsa 512;
           EvUpload dest.1 dest.2].
Proof.
  intros _ Hflag Hrun. cbv zeta.
  apply aggregate_ok in Hrun
    as (loaded & assembled & np & stored & Hl & Ha & Hm & Hd & _ & Hg & _ & Ht).
  assert (single_chain_case flag assembled = false) as Hcase.
  { apply not_true_is_false. by intros [? _]%single_chain_case_spec. }
  unfold merged in Hm. unfold merge_events in Ht. rewrite Hcase in Hm, Ht.
  destruct Hm as (m & Hpm & Hpd).
  eexists loaded, _, assembled, m, np, stored. split_and!; try done.
  by rewrite Hg, lookup_insert_eq.
Qed.

(** C3.  A listed chain without an entry in the manifest makes the run fail:
nothing is uploaded and the output artifact is left as it was.  The loop
stops at the first chain that fails, so the error is the [ValueError] naming
this chain when the chains listed before it were fetched and converted. *)
Theorem C3_missing_manifest_entry paths chain_info flag out w cd :
  cd ∈ chain_info ->
  chains paths !! chain_id cd = None ->
  exists e w' evs,
    aggregate_features_across_chains lib paths chain_info flag out w
    = (Raise e, w')
    /\ gcs w' = gcs w
    /\ features w' = features w
    /\ trace w' = trace w ++ evs
    /\ (forall b k, EvUpload b k ∉ evs)
    /\ (forall pre post acc w1,
          chain_info = pre ++ cd :: post ->
          load_chains lib paths [] pre w = (Ok acc, w1) ->
          e = ValueError ("No path information found for chain "
                          +:+ chain_id cd))
    /\ PyStr.occurs (chain_id cd)
         ("No path information found for chain " +:+ chain_id cd) = true.
Proof.
  intros Hin Hnone. rewrite aggregate_run.
  destruct (load_chains lib paths [] chain_info w) as [[loaded|e] w1] eqn:El.
  { apply load_chains_ok in El as (_ & Hall & _).
    rewrite Forall_forall in Hall.
    destruct (Hall _ Hin) as (conv & p & ? & ? & Hp & _). congruence. }
  pose proof (load_chains_only_reads _ _ _ _ _ _ _ El)
    as (Hg & _ & Hf & evs & Ht & Hr).
  exists e, w1, evs. split_and!; try done.
  - intros b k Hup. rewrite Forall_forall in Hr. by apply Hr in Hup.
  - intros pre post acc w2 -> Hpre.
    rewrite load_chains_app, Hpre in El. cbn [load_chains] in El.
    unfold bind in El. rewrite load_chain_run, Hnone in El.
    by injection El as <- _.
  - apply PyStrFacts.occurs_behind, PyStrFacts.occurs_refl.
Qed.

(** C4.  A listed chain whose object is not in the store makes the run fail:
nothing is uploaded and the output artifact is left as it was.  The error
is the [FileNotFoundError] naming this chain and the full path of its
object when the chains listed before it were fetched and converted. *)
Theorem C4_missing_feature_blob paths chain_info flag out w cd p :
  cd ∈ chain_info ->
  chains paths !! chain_id cd = Some p ->
  gcs w !! chain_location p = None ->
  let full_path := gs_uri (chain_location p).1 (chain_location p).2 in
  let message :=
    "Features file not found in GCS for chain " +:+ chain_id cd +:+ ": "
    +:+ full_path in
  exists e w' evs,
    aggregate_features_across_chains lib paths chain_info flag out w
    = (Raise e, w')
    /\ gcs w' = gcs w
    /\ features w' = features w
    /\ trace w' = trace w ++ evs
    /\ (forall b k, EvUpload b k ∉ evs)
    /\ (forall pre post acc w1,
          chain_info = pre ++ cd :: post ->
          load_chains lib paths [] pre w = (Ok acc, w1) ->
          e = FileNotFoundError message)
    /\ PyStr.occurs full_path message = true.
Proof.
  intros Hin Hp Hblob. cbv zeta. rewrite aggregate_run.
  destruct (load_chains lib paths [] chain_info w) as [[loaded|e] w1] eqn:El.
  { apply load_chains_ok in El as (_ & Hall & _).
    rewrite Forall_forall in Hall.
    destruct (Hall _ Hin) as (conv & p' & ? & ? & Hp' & Hb & _). congruence. }
  pose proof (load_chains_only_reads _ _ _ _ _ _ _ El)
    as (Hg & _ & Hf & evs & Ht & Hr).
  exists e, w1, evs. split_and!; try done.
  - intros b k Hup. rewrite Forall_forall in Hr. by apply Hr in Hup.
  - intros pre post acc w2 -> Hpre.
    rewrite load_chains_app, Hpre in El. cbn [load_chains] in El.
    unfold bind in El. rewrite load_chain_run, Hp in El. cbv zeta in El.
    apply load_chains_only_reads in Hpre as (Hg2 & _).
    rewrite Hg2, Hblob in El. injection El as <- _. done.
  - do 3 apply PyStrFacts.occurs_behind. apply PyStrFacts.occurs_refl.
Qed.

(** C5.  When everything up to the upload went through and serialising or
uploading raises [e0], the run raises a [RuntimeError] whose text carries
the output location and the text of [e0]; the store and the output artifact
are left as they were. *)
Theorem C5_failed_upload_is_wrapped paths chain_info flag out w
    loaded w1 assembled np e0 :
  let o := effective_output paths out in
  load_chains lib paths [] chain_info w = (Ok loaded, w1) ->
  add_assembly_features lib loaded = Ok assembled ->
  merged lib flag assembled np ->
  (pickle_dump lib np = Raise e0
   \/ exists stored,
        pickle_dump lib np = Ok stored
        /\ gcs_upload_fault w (output_location o).1 (output_location o).2
           = Some e0) ->
  let message :=
    "Failed to save features to GCS at " +:+ o +:+ ": " +:+ str_of_exn e0 in
  exists w',
    aggregate_features_across_chains lib paths chain_info flag out w
    = (Raise (RuntimeError message), w')
    /\ features w' = features w
    /\ gcs w' = gcs w
    /\ PyStr.occurs o message = true.
Proof.
  intros o Hl Ha Hm Hfail message. rewrite aggregate_run, Hl, Ha.
  rewrite (merge_chains_merged _ _ _ _ _ Hm), save_features_run. cbv zeta.
  apply load_chains_only_reads in Hl as (Hg & Hfault & Hf & _).
  cbn [gcs_upload_fault with_events]. fold o. rewrite Hfault.
  assert (PyStr.occurs o message = true) as Hocc
    by apply PyStrFacts.occurs_behind, PyStrFacts.occurs_here.
  destruct Hfail as [->|(stored & -> & ->)]; eexists; by split_and!.
Qed.

(** C6.  A run that returns reports the flag it was given and, as
[num_chains], the number of chains it holds records for: the number of
distinct chain identifiers listed ([add_assembly_features] returning as many
records as it is given). *)
Theorem C6_metadata_reports_count_and_flag paths chain_info flag out w w' :
  assembly_keeps_chains lib ->
  aggregate_features_across_chains lib paths chain_info flag out w
  = (Ok tt, w') ->
  metadata (features w')
  = {[ "is_homomer_or_monomer" := MStr flag;
       "num_chains" :=
         MInt (Z.of_nat (length (remove_dups (chain_id <$> chain_info)))) ]}.
Proof.
  intros Hkeep Hrun.
  apply aggregate_ok in Hrun
    as (loaded & assembled & np & stored & Hl & Ha & _ & _ & _ & _ & Hf & _).
  rewrite Hf. cbn [reported metadata].
  by rewrite (Hkeep _ _ Ha), (load_chains_count _ _ _ _ _ _ Hl).
Qed.


(** C9.  The single-chain branch is taken exactly when the flag is the
string ['true'] and the dictionary holds one chain.  With any other flag a
run that returns has gone through [pair_and_merge] and [pad_msa] with 512,
and has written their result, also when one chain is present. *)
Theorem C9_single_branch_only_for_true paths chain_info flag out w w' :
  aggregate_features_across_chains lib paths chain_info flag out w
  = (Ok tt, w') ->
  exists loaded w1 assembled evs,
    load_chains lib paths [] chain_info w = (Ok loaded, w1)
    /\ add_assembly_features lib loaded = Ok assembled
    /\ trace w' = trace w ++ evs
    /\ (EvPairAndMerge ∉ evs <-> flag = "true" /\ length assembled = 1)
    /\ (flag <> "true" ->
        exists m np stored,
          pair_and_merge lib assembled = Ok m
          /\ pad_msa lib m 512 = Ok np
          /\ pickle_dump lib np = Ok stored
          /\ gcs w' !! output_location (effective_output paths out)
             = Some stored
          /\ EvPairAndMerge ∈ evs /\ EvPadMsa 512 ∈ evs).
Proof.
  intros Hrun.
  apply aggregate_ok in Hrun
    as (loaded & assembled & np & stored & Hl & Ha & Hm & Hd & _ & Hg & _ & Ht).
  eexists loaded, _, assembled, _. split_and!.
  1: exact Hl. 1: exact Ha. 1: exact Ht.
  - rewrite <- single_chain_case_spec. unfold merge_events.
    rewrite !not_elem_of_app.
    assert (EvPairAndMerge ∉ flat_map (chain_events paths) chain_info) as Hreads
      by (apply not_read_absent; cbn; tauto).
    destruct (single_chain_case flag assembled).
    + split; [done|]. intros _. split_and!; [done|list_mem..].
    + split; [|done]. intros (_ & _ & Hin & _). revert Hin. list_mem.
  - intros Hflag.
    assert (single_chain_case flag assembled = false) as Hcase.
    { apply not_true_is_false. by intros [? _]%single_chain_case_spec. }
    unfold merged, merge_events in *. rewrite Hcase in *.
    destruct Hm as (m & Hpm & Hpd).
    exists m, np, stored. split_and!; try done.
    + by rewrite Hg, lookup_insert_eq.
    + rewrite !elem_of_app. right. right. list_mem.
    + rewrite !elem_of_app. right. right. list_mem.
Qed.

(** C10.  In the single-chain branch nothing is padded: the record that is
serialised and uploaded is the chain's record as it stands, with whatever
alignment depth it has, and [pad_msa] is not called. *)
Theorem C10_single_branch_not_padded paths chain_info flag out w w'
    loaded w1 assembled :
  load_chains lib paths [] chain_info w = (Ok loaded, w1) ->
  add_assembly_features lib loaded = Ok assembled ->
  single_chain_case flag assembled = true ->
  aggregate_features_across_chains lib paths chain_info flag out w
  = (Ok tt, w') ->
  exists key np stored evs,
    assembled = [(key, np)]
    /\ pickle_dump lib np = Ok stored
    /\ gcs w' !! output_location (effective_output paths out) = Some stored
    /\ trace w' = trace w ++ evs
    /\ forall n, EvPadMsa n ∉ evs.
Proof.
  intros Hl Ha Hcase Hrun.
  apply aggregate_ok in Hrun
    as (loaded' & assembled' & np & stored & Hl' & Ha' & Hm & Hd & _ & Hg & _
        & Ht).
  rewrite Hl in Hl'. injection Hl' as <- _.
  rewrite Ha in Ha'. injection Ha' as <-.
  unfold merged, merge_events in *. rewrite Hcase in *.
  destruct Hm as [key ->].
  eexists key, np, stored, _. split_and!; [done..| |exact Ht|].
  - by rewrite Hg, lookup_insert_eq.
  - intros n. rewrite !not_elem_of_app.
    split_and!; [apply not_read_absent; cbn; tauto|list_mem..].
Qed.

End Claims.

(** ** The claims on the worked runs *)

Section Witnesses.
Import SpecLib SpecLibFacts Demo.

Lemma C1_witness :
  assembly_keeps_chains spec_lib
  /\ run_A "true" = (Ok tt, (run_A "true").2)
  /\ exists conv key np stored,
      fetched spec_lib manifest_AB (gcs world_AB) A conv
      /\ add_assembly_features spec_lib [("A", conv)] = Ok [(key, np)]
      /\ pickle_dump spec_lib np = Ok stored
      /\ gcs (run_A "true").2
         = <[("bkt", "run1/full/all_chain_features.pkl") := stored]>
             (gcs world_AB)
      /\ trace (run_A "true").2 =
         [EvExists "bkt" "run1/A/features.pkl";
          EvDownload "bkt" "run1/A/features.pkl"; EvConvert "A"; EvAssembly;
          EvUpload "bkt" "run1/full/all_chain_features.pkl"].
Proof.
  assert (run_A "true" = (Ok tt, (run_A "true").2)) as Hrun by (by vm_compute).
  split; [exact spec_assembly_keeps_chains|]. split; [exact Hrun|].
  exact (C1_single_chain_written_unpaired spec_lib manifest_AB A
           "gs://bkt/default" world_AB _ spec_assembly_keeps_chains Hrun).
Defined.

Lemma C2_witness :
  2 <= length [A; B]
  /\ "false" <> "true"
  /\ run_AB = (Ok tt, run_AB.2)
  /\ exists loaded w1 assembled m np stored,
      load_chains spec_lib manifest_AB [] [A; B] world_AB = (Ok loaded, w1)
      /\ add_assembly_features spec_lib loaded = Ok assembled
      /\ pair_and_merge spec_lib assembled = Ok m
      /\ pad_msa spec_lib m 512 = Ok np
      /\ pickle_dump spec_lib np = Ok stored
      /\ gcs run_AB.2 !! ("bkt", "run1/full/all_chain_features.pkl")
         = Some stored
      /\ trace run_AB.2 =
         trace world_AB ++ flat_map (chain_events manifest_AB) [A; B]
         ++ [EvAssembly; EvPairAndMerge; EvPadMsa 512;
             EvUpload "bkt" "run1/full/all_chain_features.pkl"].
Proof.
  assert (run_AB = (Ok tt, run_AB.2)) as Hrun by (by vm_compute).
  assert ("false" <> "true") as Hflag by done.
  assert (2 <= length [A; B]) as Hlen by (cbn; lia).
  split_and!; [exact Hlen|exact Hflag|exact Hrun|].
  exact (C2_multimer_merged_then_padded spec_lib manifest_AB [A; B] "false"
           "gs://bkt/default" world_AB _ Hlen Hflag Hrun).
Defined.

(** Against C2 as it is worded: two chains, the flag unset, one alignment
600 deep, and a [pad_msa] that takes 512 as a minimum.  The run returns, and
the record it has stored is 600 deep, not 512. *)
Lemma C2_counterexample :
  2 <= length [A; DemoEdge.D]
  /\ "false" <> "true"
  /\ DemoEdge.run_AD.1 = Ok tt
  /\ gcs DemoEdge.run_AD.2 !! ("bkt", "run1/full/all_chain_features.pkl")
     = Some DemoEdge.stored_AD
  /\ msa_depth DemoEdge.stored_AD = Some 600
  /\ msa_depth DemoEdge.stored_AD <> Some 512.
Proof.
  assert (msa_depth DemoEdge.stored_AD = Some 600) as Hdepth
    by (by vm_compute).
  split_and!; [cbn; lia|done|by vm_compute|by vm_compute|exact Hdepth|].
  rewrite Hdepth. by intros [=].
Qed.

(** The spec's end-to-end example: chains [A] (depth 10) and [B] (depth 8),
flag false. *)
Example end_to_end_two_chains :
  msa_depth merged_AB = Some 10
  /\ run_AB.1 = Ok tt
  /\ gcs run_AB.2 !! ("bkt", "run1/full/all_chain_features.pkl")
     = Some padded_AB
  /\ msa_depth padded_AB = Some 512
  /\ features run_AB.2
     = Artifact "gs://bkt/run1/full/all_chain_features.pkl"
         {[ "is_homomer_or_monomer" := MStr "false"; "num_chains" := MInt 2 ]}.
Proof. by vm_compute. Qed.

(** Against C3 as it is worded: with neither chain in the manifest, chain
[B] is listed and has no entry, and yet the error that is raised does not
name it -- the loop stopped at chain [A]. *)
Lemma C3_counterexample :
  B ∈ [A; B]
  /\ chains manifest_none !! chain_id B = None
  /\ run_no_manifest.1
     = Raise (ValueError "No path information found for chain A")
  /\ ~ (exists e, run_no_manifest.1 = Raise e
                  /\ PyStr.occurs (chain_id B) (str_of_exn e) = true).
Proof.
  split_and!.
  - by repeat constructor.
  - by vm_compute.
  - by vm_compute.
  - intros (e & He & Hocc).
    assert (run_no_manifest.1
            = Raise (ValueError "No path information found for chain A"))
      as Hrun by (by vm_compute).
    rewrite Hrun in He. injection He as <-. by vm_compute in Hocc.
Qed.

Lemma C3_witness :
  B ∈ [A; B]
  /\ chains manifest_A !! chain_id B = None
  /\ exists w',
      run_B_unlisted
      = (Raise (ValueError "No path information found for chain B"), w')
      /\ gcs w' = gcs world_AB
      /\ features w' = features world_AB.
Proof.
  assert (B ∈ [A; B]) as Hin by (by repeat constructor).
  assert (chains manifest_A !! chain_id B = None) as Hnone by (by vm_compute).
  split_and!; [exact Hin|exact Hnone|].
  destruct (C3_missing_manifest_entry spec_lib manifest_A [A; B] "false"
              "gs://bkt/default" world_AB B Hin Hnone)
    as (e & w' & evs & Hrun & Hg & Hf & _ & _ & Hfirst & _).
  exists w'. split_and!; [|exact Hg|exact Hf].
  rewrite (Hfirst [A] [] loaded_A
             (with_events world_AB (chain_events manifest_A A))
             eq_refl ltac:(by vm_compute)) in Hrun.
  exact Hrun.
Defined.

(** Against C4 as it is worded: with nothing stored, the object of chain
[B] does not exist, and yet the error that is raised does not name its
path -- the loop stopped at chain [A]. *)
Lemma C4_counterexample :
  B ∈ [A; B]
  /\ chains manifest_AB !! chain_id B = Some "gs://bkt/run1/B"
  /\ gcs world_empty !! chain_location "gs://bkt/run1/B" = None
  /\ run_nothing_stored.1
     = Raise (FileNotFoundError
                "Features file not found in GCS for chain A: gs://bkt/run1/A/features.pkl")
  /\ ~ (exists e, run_nothing_stored.1 = Raise e
                  /\ PyStr.occurs "gs://bkt/run1/B/features.pkl" (str_of_exn e)
                     = true).
Proof.
  split_and!.
  - by repeat constructor.
  - by vm_compute.
  - by vm_compute.
  - by vm_compute.
  - intros (e & He & Hocc).
    assert (run_nothing_stored.1
            = Raise (FileNotFoundError
                       "Features file not found in GCS for chain A: gs://bkt/run1/A/features.pkl"))
      as Hrun by (by vm_compute).
    rewrite Hrun in He. injection He as <-. by vm_compute in Hocc.
Qed.

Lemma C4_witness :
  B ∈ [A; B]
  /\ chains manifest_AB !! chain_id B = Some "gs://bkt/run1/B"
  /\ gcs world_A !! chain_location "gs://bkt/run1/B" = None
  /\ exists w',
      run_B_not_stored
      = (Raise (FileNotFoundError
                  "Features file not found in GCS for chain B: gs://bkt/run1/B/features.pkl"),
         w')
      /\ gcs w' = gcs world_A
      /\ features w' = features world_A.
Proof.
  assert (B ∈ [A; B]) as Hin by (by repeat constructor).
  assert (chains manifest_AB !! chain_id B = Some "gs://bkt/run1/B") as Hp
    by (by vm_compute).
  assert (gcs world_A !! chain_location "gs://bkt/run1/B" = None) as Hblob
    by (by vm_compute).
  split_and!; [exact Hin|exact Hp|exact Hblob|].
  destruct (C4_missing_feature_blob spec_lib manifest_AB [A; B] "false"
              "gs://bkt/default" world_A B _ Hin Hp Hblob)
    as (e & w' & evs & Hrun & Hg & Hf & _ & _ & Hfirst & _).
  exists w'. split_and!; [|exact Hg|exact Hf].
  rewrite (Hfirst [A] [] loaded_A
             (with_events world_A (chain_events manifest_AB A))
             eq_refl ltac:(by vm_compute)) in Hrun.
  exact Hrun.
Defined.

Lemma C5_witness :
  load_chains spec_lib manifest_AB [] [A; B] world_refusing
  = (Ok loaded_AB,
     with_events world_refusing (flat_map (chain_events manifest_AB) [A; B]))
  /\ add_assembly_features spec_lib loaded_AB = Ok assembled_AB
  /\ merged spec_lib "false" assembled_AB padded_AB
  /\ (pickle_dump spec_lib padded_AB = Ok padded_AB
      /\ gcs_upload_fault world_refusing "bkt"
           "run1/full/all_chain_features.pkl"
         = Some (OtherError "Forbidden" "403 access denied"))
  /\ exists w',
      run_AB_refused
      = (Raise (RuntimeError
                  "Failed to save features to GCS at gs://bkt/run1/full: 403 access denied"),
         w')
      /\ features w' = fresh_artifact
      /\ gcs w' = store_AB.
Proof.
  assert (load_chains spec_lib manifest_AB [] [A; B] world_refusing
          = (Ok loaded_AB,
             with_events world_refusing
               (flat_map (chain_events manifest_AB) [A; B])))
    as Hl by (by vm_compute).
  assert (add_assembly_features spec_lib loaded_AB = Ok assembled_AB) as Ha
    by (by vm_compute).
  assert (merged spec_lib "false" assembled_AB padded_AB) as Hm.
  { unfold merged. change (single_chain_case "false" assembled_AB) with false.
    exists merged_AB. split; by vm_compute. }
  assert (pickle_dump spec_lib padded_AB = Ok padded_AB
          /\ gcs_upload_fault world_refusing "bkt"
               "run1/full/all_chain_features.pkl"
             = Some (OtherError "Forbidden" "403 access denied")) as Hfail
    by (by split).
  split_and!;
    [exact Hl|exact Ha|exact Hm|exact (proj1 Hfail)|exact (proj2 Hfail)|].
  destruct (C5_failed_upload_is_wrapped spec_lib manifest_AB [A; B] "false"
              "gs://bkt/default" world_refusing _ _ _ _
              (OtherError "Forbidden" "403 access denied") Hl Ha Hm
              ltac:(right; exists padded_AB; exact Hfail))
    as (w' & Hrun & Hf & Hg & _).
  exists w'. by split_and!.
Defined.

Lemma C6_witness :
  assembly_keeps_chains spec_lib
  /\ run_AB = (Ok tt, run_AB.2)
  /\ metadata (features run_AB.2)
     = {[ "is_homomer_or_monomer" := MStr "false"; "num_chains" := MInt 2 ]}.
Proof.
  assert (run_AB = (Ok tt, run_AB.2)) as Hrun by (by vm_compute).
  split_and!; [exact spec_assembly_keeps_chains|exact Hrun|].
  exact (C6_metadata_reports_count_and_flag spec_lib manifest_AB [A; B] "false"
           "gs://bkt/default" world_AB _ spec_assembly_keeps_chains Hrun).
Defined.



Lemma C9_witness :
  run_A "True" = (Ok tt, (run_A "True").2)
  /\ "True" <> "true"
  /\ EvPairAndMerge ∈ trace (run_A "True").2
  /\ EvPadMsa 512 ∈ trace (run_A "True").2.
Proof.
  assert (run_A "True" = (Ok tt, (run_A "True").2)) as Hrun by (by vm_compute).
  assert ("True" <> "true") as Hflag by done.
  split_and!; [exact Hrun|exact Hflag|..];
    destruct (C9_single_branch_only_for_true spec_lib manifest_AB [A] "True"
                "gs://bkt/default" world_AB _ Hrun)
      as (loaded & w1 & assembled & evs & _ & _ & Ht & _ & Hother);
    destruct (Hother Hflag) as (m & np & stored & _ & _ & _ & _ & Hpm & Hpad);
    rewrite Ht.
  - exact Hpm.
  - exact Hpad.
Defined.

(** The flags ['True'] and ['1'] are not ['true']: one chain, and yet it is
merged and padded to 512. *)
Example other_flags_pair_and_pad :
  trace (run_A "True").2
  = [EvExists "bkt" "run1/A/features.pkl";
     EvDownload "bkt" "run1/A/features.pkl"; EvConvert "A"; EvAssembly;
     EvPairAndMerge; EvPadMsa 512;
     EvUpload "bkt" "run1/full/all_chain_features.pkl"]
  /\ trace (run_A "1").2 = trace (run_A "True").2
  /\ msa_depth <$> gcs (run_A "True").2
                    !! ("bkt", "run1/full/all_chain_features.pkl")
     = Some (Some 512)
  /\ msa_depth <$> gcs (run_A "1").2
                    !! ("bkt", "run1/full/all_chain_features.pkl")
     = Some (Some 512).
Proof. by vm_compute. Qed.

Lemma C10_witness :
  load_chains spec_lib manifest_AB [] [A] world_AB
  = (Ok loaded_A, with_events world_AB (chain_events manifest_AB A))
  /\ add_assembly_features spec_lib loaded_A = Ok assembled_A
  /\ single_chain_case "true" assembled_A = true
  /\ run_A "true" = (Ok tt, (run_A "true").2)
  /\ exists key np stored evs,
      assembled_A = [(key, np)]
      /\ pickle_dump spec_lib np = Ok stored
      /\ gcs (run_A "true").2 !! ("bkt", "run1/full/all_chain_features.pkl")
         = Some stored
      /\ trace (run_A "true").2 = evs
      /\ forall n, EvPadMsa n ∉ evs.
Proof.
  assert (load_chains spec_lib manifest_AB [] [A] world_AB
          = (Ok loaded_A, with_events world_AB (chain_events manifest_AB A)))
    as Hl by (by vm_compute).
  assert (add_assembly_features spec_lib loaded_A = Ok assembled_A) as Ha
    by (by vm_compute).
  assert (single_chain_case "true" assembled_A = true) as Hcase
    by (by vm_compute).
  assert (run_A "true" = (Ok tt, (run_A "true").2)) as Hrun by (by vm_compute).
  split_and!; [exact Hl|exact Ha|exact Hcase|exact Hrun|].
  exact (C10_single_branch_not_padded spec_lib manifest_AB [A] "true"
           "gs://bkt/default" world_AB _ _ _ _ Hl Ha Hcase Hrun).
Defined.

(** The single chain keeps its depth of 10. *)
Example single_chain_depth_kept :
  msa_depth <$> gcs (run_A "true").2
                 !! ("bkt", "run1/full/all_chain_features.pkl")
  = Some (Some 10).
Proof. by vm_compute. Qed.

End Witnesses.

(** ** Further properties of the aggregation component *)

Section AggregateFacts.
Context {bytes : Type}.
Variable lib : library bytes.
Implicit Types (w : world bytes) (paths : paths_info).

(** The loop goes through when every chain can be fetched. *)
Lemma load_chains_fetched paths acc chain_info w :
  Forall (fun cd => exists conv, fetched lib paths (gcs w) cd conv) chain_info ->
  exists loaded,
    load_chains lib paths acc chain_info w
    = (Ok loaded, with_events w (flat_map (chain_events paths) chain_info)).
Proof.
  revert acc w. induction chain_info as [|cd l IH]; intros acc w Hall.
  - exists acc. cbn. by rewrite with_events_nil.
  - apply Forall_cons in Hall as [(conv & p & content & raw & Hp & Hb & Hl & Hc) Hall].
    cbn [load_chains]. unfold bind. rewrite load_chain_run, Hp. cbv zeta.
    rewrite Hb, Hl, Hc.
    destruct (IH (dict_set (chain_id cd) conv acc)
                 (with_events w (chain_events paths cd)) Hall) as [loaded ->].
    exists loaded. cbn [flat_map]. by rewrite with_events_app.
Qed.

(** X1.  The loop over the chains goes through exactly when every listed
chain has an entry in the manifest, its object is in the store, and the
object loads and converts. *)
Theorem X1_loop_goes_through_iff paths chain_info w :
  (exists loaded w1,
     load_chains lib paths [] chain_info w = (Ok loaded, w1))
  <-> Forall (fun cd => exists conv, fetched lib paths (gcs w) cd conv)
             chain_info.
Proof.
  split.
  - intros (loaded & w1 & Hl). by apply load_chains_ok in Hl as (_ & Hall & _).
  - intros Hall. destruct (load_chains_fetched paths [] _ _ Hall) as [loaded Hl].
    eauto.
Qed.

(** X2.  The run returns exactly when the loop goes through, the library
steps of the branch taken do not raise, the record serialises and the store
accepts the upload. *)
Theorem X2_run_returns_iff paths chain_info flag out w :
  let dest := output_location (effective_output paths out) in
  (exists w',
     aggregate_features_across_chains lib paths chain_info flag out w
     = (Ok tt, w'))
  <-> exists loaded w1 assembled np stored,
        load_chains lib paths [] chain_info w = (Ok loaded, w1)
        /\ add_assembly_features lib loaded = Ok assembled
        /\ merged lib flag assembled np
        /\ pickle_dump lib np = Ok stored
        /\ gcs_upload_fault w dest.1 dest.2 = None.
Proof.
  cbv zeta. split.
  - intros (w' & Hrun).
    apply aggregate_ok in Hrun
      as (loaded & assembled & np & stored & Hl & Ha & Hm & Hd & Hf & _).
    by eexists loaded, _, assembled, np, stored.
  - intros (loaded & w1 & assembled & np & stored & Hl & Ha & Hm & Hd & Hf).
    rewrite aggregate_run, Hl, Ha.
    rewrite (merge_chains_merged _ _ _ _ _ Hm), save_features_run. cbv zeta.
    apply load_chains_only_reads in Hl as (_ & Hfault & _).
    cbn [gcs_upload_fault with_events]. rewrite Hd, Hfault, Hf. eauto.
Qed.

(** The choice of [np_example] only calls the library. *)
Lemma merge_chains_calls flag all w r w' :
  merge_chains lib flag all w = (r, w') ->
  exists calls, Forall is_library_call calls /\ w' = with_events w calls.
Proof.
  rewrite merge_chains_run.
  destruct (single_chain_case flag all).
  - exists []. rewrite with_events_nil.
    split; [done|]. destruct all as [|[? ?] ?]; congruence.
  - destruct (pair_and_merge lib all) as [m|e]; intros [= _ <-];
      eexists; (split; [|done]); by repeat constructor.
Qed.

(** Every run ends in one of the ways of [run_outcome]. *)
Lemma aggregate_outcome paths chain_info flag out w r w' :
  aggregate_features_across_chains lib paths chain_info flag out w = (r, w') ->
  run_outcome (output_location (effective_output paths out)) w r w'.
Proof.
  rewrite aggregate_run. unfold run_outcome.
  destruct (load_chains lib paths [] chain_info w) as [[loaded|e] w1] eqn:El;
    apply load_chains_only_reads in El as (Hg & Hfault & Hf & reads & Ht & Hr).
  2:{ intros [= <- <-]. exists reads, []. split_and!; [done..|]. left.
      split_and!; eauto. left. by rewrite app_nil_r. }
  destruct (add_assembly_features lib loaded) as [assembled|e].
  2:{ intros [= <- <-]. exists reads, [EvAssembly].
      split_and!; [done|by repeat constructor|]. left.
      split_and!; eauto. left. cbn. by rewrite Ht, <- app_assoc. }
  destruct (merge_chains lib flag assembled _) as [r2 w2] eqn:Em.
  apply merge_chains_calls in Em as (calls & Hcalls & ->). intros Hrun.
  exists reads, ([EvAssembly] ++ calls).
  split; [done|]. split; [apply Forall_app; split; [by repeat constructor|done]|].
  destruct r2 as [np|e].
  2:{ injection Hrun as <- <-. left. split_and!; eauto. left.
      cbn. by rewrite Ht, <- !app_assoc. }
  rewrite save_features_run in Hrun. cbv zeta in Hrun.
  cbn [gcs_upload_fault with_events gcs features trace] in Hrun.
  destruct (pickle_dump lib np) as [stored|e].
  - destruct (gcs_upload_fault w1 _ _) as [e|]; injection Hrun as <- <-.
    + left. split_and!; eauto. right. cbn. by rewrite Ht, <- !app_assoc.
    + right. split_and!; [done| |].
      * exists stored. cbn. by rewrite Hg.
      * cbn. by rewrite Ht, <- !app_assoc.
  - injection Hrun as <- <-. left. split_and!; eauto. left.
    cbn. by rewrite Ht, <- !app_assoc.
Qed.

Lemma uploads_none (evs : list event) :
  Forall (fun ev => is_read ev \/ is_library_call ev) evs ->
  filter (fun ev => is_upload ev = true) evs = []
  /\ forall b k, EvUpload b k ∉ evs.
Proof.
  intros Hall. split.
  - induction Hall as [|ev l Hev _ IH]; [done|].
    rewrite filter_cons, IH. by destruct ev, Hev.
  - intros b k Hin. rewrite Forall_forall in Hall.
    by destruct (Hall _ Hin).
Qed.

Lemma reads_then_calls reads calls :
  Forall is_read reads -> Forall is_library_call calls ->
  Forall (fun ev => is_read ev \/ is_library_call ev) (reads ++ calls).
Proof.
  intros Hr Hc. apply Forall_app. split.
  - eapply Forall_impl; [exact Hr|]. by left.
  - eapply Forall_impl; [exact Hc|]. by right.
Qed.

(** X3.  A run that raises leaves no output: the store and the output
artifact are as they were before the run. *)
Theorem X3_failure_leaves_no_output paths chain_info flag out w e w' :
  aggregate_features_across_chains lib paths chain_info flag out w
  = (Raise e, w') ->
  gcs w' = gcs w /\ features w' = features w.
Proof.
  intros (reads & calls & _ & _ & [(_ & Hg & Hf & _)|(? & _)])%aggregate_outcome;
    done.
Qed.

(** X4.  Whatever the outcome, no object of the store other than the
destination is created, changed or removed: in particular the per-chain
records are left in place. *)
Theorem X4_only_destination_changes paths chain_info flag out w r w' loc :
  aggregate_features_across_chains lib paths chain_info flag out w = (r, w') ->
  loc <> output_location (effective_output paths out) ->
  gcs w' !! loc = gcs w !! loc.
Proof.
  intros (reads & calls & _ & _ & [(_ & Hg & _)|(_ & (stored & Hg) & _)])
           %aggregate_outcome Hloc.
  - by rewrite Hg.
  - by rewrite Hg, lookup_insert_ne.
Qed.

(** X5.  Whatever the outcome, a run calls the upload at most once, and
only for the destination under the output prefix. *)
Theorem X5_at_most_one_upload paths chain_info flag out w r w' :
  aggregate_features_across_chains lib paths chain_info flag out w = (r, w') ->
  exists evs,
    trace w' = trace w ++ evs
    /\ length (filter (fun ev => is_upload ev = true) evs) <= 1
    /\ forall b k,
         EvUpload b k ∈ evs ->
         (b, k) = output_location (effective_output paths out).
Proof.
  intros (reads & calls & Hr & Hc & Hcases)%aggregate_outcome.
  destruct (uploads_none _ (reads_then_calls _ _ Hr Hc)) as [Hnone Hnot].
  assert (exists evs, trace w' = trace w ++ evs
            /\ (evs = reads ++ calls
                \/ evs = (reads ++ calls)
                         ++ [EvUpload
                               (output_location (effective_output paths out)).1
                               (output_location (effective_output paths out)).2]))
    as (evs & Ht & Hevs).
  { destruct Hcases as [(_ & _ & _ & [Ht|Ht])|(_ & _ & Ht)];
      eexists; (split; [exact Ht|]); rewrite ?app_assoc; auto. }
  exists evs. split; [done|].
  destruct Hevs as [->| ->].
  - rewrite Hnone. split; [cbn; lia|]. intros b k Hin. by apply Hnot in Hin.
  - rewrite filter_app, Hnone, filter_cons_True, filter_nil by done.
    split; [cbn; lia|].
    intros b k [Hin|Hin]%elem_of_app; [by apply Hnot in Hin|].
    apply list_elem_of_singleton in Hin. injection Hin as -> ->.
    symmetry. apply surjective_pairing.
Qed.

(** X6.  An error of [add_assembly_features], [pair_and_merge] or [pad_msa]
is raised as it is, not wrapped, and no upload is attempted. *)
Theorem X6_library_errors_raised_as_is paths chain_info flag out w
    loaded w1 e :
  load_chains lib paths [] chain_info w = (Ok loaded, w1) ->
  (add_assembly_features lib loaded = Raise e
   \/ exists assembled,
        add_assembly_features lib loaded = Ok assembled
        /\ single_chain_case flag assembled = false
        /\ (pair_and_merge lib assembled = Raise e
            \/ exists m, pair_and_merge lib assembled = Ok m
                         /\ pad_msa lib m 512 = Raise e)) ->
  exists w' evs,
    aggregate_features_across_chains lib paths chain_info flag out w
    = (Raise e, w')
    /\ trace w' = trace w ++ evs
    /\ forall b k, EvUpload b k ∉ evs.
Proof.
  intros Hl Hfail. rewrite aggregate_run, Hl.
  apply load_chains_only_reads in Hl as (_ & _ & _ & reads & Ht & Hr).
  assert (forall calls, Forall is_library_call calls ->
            trace (with_events w1 calls) = trace w ++ reads ++ calls
            /\ forall b k, EvUpload b k ∉ reads ++ calls) as Hev.
  { intros calls Hc. split; [cbn; by rewrite Ht, <- app_assoc|].
    apply uploads_none. by apply reads_then_calls. }
  destruct Hfail as [->|(assembled & -> & Hcase & Hmerge)].
  - destruct (Hev [EvAssembly]) as [? ?]; [by repeat constructor|]. eauto.
  - rewrite merge_chains_run, Hcase.
    destruct Hmerge as [->|(m & -> & ->)]; rewrite with_events_app.
    + destruct (Hev [EvAssembly; EvPairAndMerge]) as [? ?];
        [by repeat constructor|]. eauto.
    + destruct (Hev [EvAssembly; EvPairAndMerge; EvPadMsa 512]) as [? ?];
        [by repeat constructor|]. eauto.
Qed.

(** X7.  With no chain listed nothing is read, and whatever the flag --
['true'] included -- the single-chain branch is not taken: the empty
dictionary goes to [pair_and_merge]. *)
Theorem X7_no_chains_goes_to_pairing paths flag out w r w' :
  add_assembly_features lib [] = Ok [] ->
  aggregate_features_across_chains lib paths [] flag out w = (r, w') ->
  exists evs,
    trace w' = trace w ++ EvAssembly :: EvPairAndMerge :: evs
    /\ (forall e, pair_and_merge lib [] = Raise e ->
                  r = Raise e /\ evs = []).
Proof.
  intros Ha. rewrite aggregate_run. cbn [load_chains]. unfold ret.
  rewrite Ha, merge_chains_run.
  assert (single_chain_case flag [] = false) as ->
    by (unfold single_chain_case; apply andb_false_r).
  destruct (pair_and_merge lib []) as [m|e].
  - destruct (pad_msa lib m 512) as [np|e].
    + rewrite save_features_run. cbv zeta.
      destruct (pickle_dump lib np) as [stored|e];
        [destruct (gcs_upload_fault _ _ _)|];
        intros [= <- <-]; eexists; (split; [|done]); cbn;
        rewrite <- ?app_assoc; done.
    + intros [= <- <-]. eexists. split; [|done]. cbn.
      by rewrite <- app_assoc.
  - intros [= <- <-]. exists []. split; [|by intros ? [= ->]]. cbn.
    by rewrite <- app_assoc.
Qed.

(** X8.  The loop stops at the first chain that fails: the error of that
chain is the error of the run, whatever the flag and the output location,
and the chains listed after it are not looked up, fetched or converted. *)
Theorem X8_later_chains_untouched paths pre cd post flag out w acc w1 e w2 :
  load_chains lib paths [] pre w = (Ok acc, w1) ->
  load_chain lib paths acc cd w1 = (Raise e, w2) ->
  aggregate_features_across_chains lib paths (pre ++ cd :: post) flag out w
  = (Raise e, w2)
  /\ exists done_ left_,
       chain_events paths cd = done_ ++ left_
       /\ trace w2 = trace w ++ flat_map (chain_events paths) pre ++ done_.
Proof.
  intros Hpre Hcd. split.
  - rewrite aggregate_run, load_chains_app, Hpre. cbn [load_chains].
    unfold bind. by rewrite Hcd.
  - apply load_chains_ok in Hpre as (-> & _).
    rewrite load_chain_run in Hcd. unfold chain_events in Hcd |- * at 1.
    destruct (chains paths !! chain_id cd) as [p|].
    2:{ injection Hcd as _ <-. exists [], []. split; [done|].
        cbn. by rewrite app_nil_r. }
    cbv zeta in Hcd. cbn [gcs with_events] in Hcd.
    destruct (gcs w !! chain_location p) as [content|].
    2:{ injection Hcd as _ <-. eexists [_], [_; _]. split; [done|].
        cbn. by rewrite <- app_assoc. }
    destruct (pickle_load lib content) as [raw|].
    2:{ injection Hcd as _ <-. eexists [_; _], [_]. split; [done|].
        cbn. by rewrite <- app_assoc. }
    destruct (convert_monomer_features lib raw (chain_id cd)); [done|].
    injection Hcd as _ <-. eexists [_; _; _], []. split; [done|].
    cbn. by rewrite <- app_assoc.
Qed.

Lemma dict_keys_set {V} (k : string) (v : V) d :
  dict_keys (dict_set k v d)
  = if decide (k ∈ dict_keys d) then dict_keys d else dict_keys d ++ [k].
Proof.
  unfold dict_keys. induction d as [|[k0 v0] d IH]; cbn [dict_set].
  - rewrite decide_False by apply not_elem_of_nil. done.
  - cbn [fmap list_fmap fst]. destruct (String.eqb_spec k0 k) as [->|Hne].
    + rewrite decide_True by (apply elem_of_cons; by left). done.
    + cbn [fmap list_fmap fst]. rewrite IH.
      destruct (decide (k ∈ d.*1)) as [Hin|Hnin].
      * rewrite decide_True; [done|]. apply elem_of_cons. by right.
      * rewrite decide_False; [done|].
        intros [?|?]%elem_of_cons; congruence.
Qed.

Lemma dict_get_set_ne {V} (k k' : string) (v : V) d :
  k <> k' -> dict_get k' (dict_set k v d) = dict_get k' d.
Proof.
  intros Hne. induction d as [|[k0 v0] d IH]; cbn.
  - by rewrite (proj2 (String.eqb_neq k k')).
  - destruct (String.eqb_spec k0 k) as [->|Hk0]; cbn.
    + by rewrite (proj2 (String.eqb_neq k k')).
    + destruct (String.eqb k0 k'); [done|]. apply IH.
Qed.

Lemma load_chains_dictionary paths acc chain_info w loaded w1 :
  load_chains lib paths acc chain_info w = (Ok loaded, w1) ->
  dict_keys loaded
  = foldl (fun seen k => if decide (k ∈ seen) then seen else seen ++ [k])
          (dict_keys acc) (chain_id <$> chain_info)
  /\ forall k conv,
       dict_get k loaded = Some conv ->
       dict_get k acc = Some conv
       \/ exists cd, cd ∈ chain_info /\ chain_id cd = k
                     /\ fetched lib paths (gcs w) cd conv.
Proof.
  revert acc w. induction chain_info as [|cd l IH]; intros acc w.
  - intros [= <- <-]. split; [done|]. auto.
  - cbn [load_chains]. unfold bind.
    destruct (load_chain lib paths acc cd w) as [[acc1|e] w2] eqn:E1; [|done].
    apply load_chain_ok in E1 as (conv1 & Hf & -> & ->).
    intros [Hkeys Hvals]%IH. split.
    + rewrite Hkeys, fmap_cons. cbn [foldl]. by rewrite dict_keys_set.
    + intros k conv [Hacc|(cd' & Hin & Hid & Hf')]%Hvals.
      * destruct (decide (chain_id cd = k)) as [<-|Hne].
        -- rewrite dict_get_set_eq in Hacc. injection Hacc as <-.
           right. exists cd. split_and!; [by left|done..].
        -- rewrite dict_get_set_ne in Hacc by done. by left.
      * right. exists cd'. split_and!; [by right|done..].
Qed.

(** X9.  The dictionary the loop hands on has one entry per distinct chain
identifier, in the order the identifiers first appear in the chain list,
and each entry holds a record fetched and converted for that chain. *)
Theorem X9_one_entry_per_chain_in_order paths chain_info w loaded w1 :
  load_chains lib paths [] chain_info w = (Ok loaded, w1) ->
  dict_keys loaded = first_seen (chain_id <$> chain_info)
  /\ forall k conv,
       dict_get k loaded = Some conv ->
       exists cd, cd ∈ chain_info /\ chain_id cd = k
                  /\ fetched lib paths (gcs w) cd conv.
Proof.
  intros [Hkeys Hvals]%load_chains_dictionary. split; [exact Hkeys|].
  intros k conv [Hacc|H]%Hvals; [done|exact H].
Qed.

End AggregateFacts.

(** ** Further properties of the path handling *)

Section PathFacts.
Import PyStr PyStrFacts.

Lemma prefix_one sep c s :
  String.prefix (String sep EmptyString) (String c s) = Ascii.eqb c sep.
Proof.
  cbn. destruct (ascii_dec sep c) as [->|Hne].
  - rewrite Ascii.eqb_refl. by destruct s.
  - symmetry. apply Ascii.eqb_neq. congruence.
Qed.

Lemma split_absent sep s :
  occurs (String sep EmptyString) s = false -> split sep s = [s].
Proof.
  induction s as [|c s IH]; [done|].
  rewrite occurs_cons, prefix_one. intros [Hc Hs]%orb_false_elim.
  cbn [split]. by rewrite Hc, IH.
Qed.

Lemma first_separator sep s :
  occurs (String sep EmptyString) s = true ->
  exists b rest,
    s = b +:+ String sep rest /\ occurs (String sep EmptyString) b = false.
Proof.
  induction s as [|c s IH]; [done|].
  rewrite occurs_cons, prefix_one.
  destruct (Ascii.eqb_spec c sep) as [->|Hc].
  - intros _. by exists EmptyString, s.
  - cbn [orb]. intros (b & rest & -> & Hb)%IH.
    exists (String c b), rest. split; [done|].
    rewrite occurs_cons, prefix_one, Hb.
    by rewrite (proj2 (Ascii.eqb_neq c sep)).
Qed.

Lemma parse_without_separator path :
  occurs "/" (replace "gs://" EmptyString path) = false ->
  bucket_of path = replace "gs://" EmptyString path
  /\ prefix_of path = EmptyString.
Proof.
  intros Hs. unfold bucket_of, prefix_of.
  by rewrite (split_absent "/" _ Hs).
Qed.

(** X10.  The scheme is optional: a location is read alike from a path
with and without a leading [gs://]. *)
Theorem X10_scheme_is_optional s :
  chain_location ("gs://" +:+ s) = chain_location s
  /\ output_location ("gs://" +:+ s) = output_location s.
Proof.
  unfold chain_location, output_location, bucket_of, prefix_of.
  by rewrite !replace_leading, !app_empty_l.
Qed.

(** X11.  Bucket and prefix take a path apart at its first separator, the
scheme left out: put together again they give the path back, and a path
without a separator is all bucket. *)
Theorem X11_bucket_and_prefix_recompose path :
  let s := replace "gs://" EmptyString path in
  (occurs "/" s = true ->
   bucket_of path +:+ "/" +:+ prefix_of path = s
   /\ occurs "/" (bucket_of path) = false)
  /\ (occurs "/" s = false ->
      bucket_of path = s /\ prefix_of path = EmptyString).
Proof.
  cbv zeta. split; [|apply parse_without_separator].
  intros (b & rest & Hs & Hb)%first_separator.
  unfold bucket_of, prefix_of. rewrite Hs, (split_first "/" b rest Hb).
  cbn [hd tl]. by rewrite join_split.
Qed.

(** X12.  A path that names a bucket and nothing else: the record of a
chain is looked for under the object name [/features.pkl], with the
separator in front, while the merged record goes to
[all_chain_features.pkl], without. *)
Theorem X12_bucket_only_paths path :
  occurs "/" (replace "gs://" EmptyString path) = false ->
  chain_location path
  = (replace "gs://" EmptyString path, "/features.pkl")
  /\ output_location path
     = (replace "gs://" EmptyString path, "all_chain_features.pkl").
Proof.
  intros [Hb Hp]%parse_without_separator.
  unfold chain_location, output_location. by rewrite Hb, Hp.
Qed.

End PathFacts.

(** ** Properties of the prediction component *)

Section PredictFacts.
Context {bytes : Type}.
Variable plib : predict_library bytes.
Implicit Types (w : predict_world bytes).

(** Fetching the model features changes the local files and the list of
downloads at most. *)
Lemma fetch_model_features_frame uri w r w' :
  fetch_model_features plib uri w = (r, w') ->
  store w' = store w /\ environ w' = environ w
  /\ raw_prediction w' = raw_prediction w
  /\ unrelaxed_protein w' = unrelaxed_protein w.
Proof.
  unfold fetch_model_features.
  destruct (String.prefix "gs://" uri); [|by intros [= _ <-]].
  destruct (store w !! _); by intros [= _ <-].
Qed.

(** X13.  A prediction that returns has given the two output uris their
suffixes, has run the model on the store as it was and with the two
environment settings made, telling it to write at the paths of the suffixed
uris, and has added to the metadata the category, the prediction index and
the ranking confidence the model returned; metadata under other keys is
kept, and the store, the files and the environment are as the model left
them. *)
Theorem X13_predict_success uri params name index ensemble multimer seed
    tf xla w w' :
  predict plib uri params name index ensemble multimer seed tf xla w
  = (Ok tt, w') ->
  exists args before prediction_result confidence after,
    alphafold_predict plib args before = (Ok prediction_result, after)
    /\ prediction_result !! "ranking_confidence" = Some confidence
    /\ model_params_path args = artifact_path plib params
    /\ raw_prediction_path args
       = artifact_path plib (out_uri (raw_prediction w) +:+ ".pkl")
    /\ unrelaxed_protein_path args
       = artifact_path plib (out_uri (unrelaxed_protein w) +:+ ".pdb")
    /\ sur_store before = store w
    /\ sur_environ before
       = <["XLA_PYTHON_CLIENT_MEM_FRACTION" := xla]>
           (<["TF_FORCE_UNIFIED_MEMORY" := tf]> (environ w))
    /\ raw_prediction w'
       = OutArtifact (out_uri (raw_prediction w) +:+ ".pkl")
           (<["ranking_confidence" := confidence]>
              (<["prediction_index" := PInt index]>
                 (<["category" := PStr "raw_prediction"]>
                    (out_metadata (raw_prediction w)))))
    /\ unrelaxed_protein w'
       = OutArtifact (out_uri (unrelaxed_protein w) +:+ ".pdb")
           (<["category" := PStr "unrelaxed_protein"]>
              (out_metadata (unrelaxed_protein w)))
    /\ store w' = sur_store after
    /\ files w' = sur_files after
    /\ environ w' = sur_environ after.
Proof.
  unfold predict.
  destruct (fetch_model_features plib uri _) as [[path|e] w1] eqn:Ef; [|done].
  apply fetch_model_features_frame in Ef as (Hs & He & Hr & Hu).
  cbn [store environ raw_prediction unrelaxed_protein] in *.
  cbv zeta. rewrite Hr, Hu.
  match goal with
  | |- context [alphafold_predict plib ?a ?f] =>
      destruct (alphafold_predict plib a f) as [[res|e] after] eqn:Ea;
        [|done];
      destruct (res !! "ranking_confidence") as [c|] eqn:Ec; [|done];
      intros [= <-]; exists a, f, res, c, after
  end.
  cbn. by split_and!.
Qed.

(** X14.  When the uri of the model features starts with [gs://] and the
object it names is not in the store, the prediction raises the error of the
download: the model is not run and neither output artifact is touched; only
the two environment settings have been made. *)
Theorem X14_predict_missing_features uri params name index ensemble multimer
    seed tf xla w :
  String.prefix "gs://" uri = true ->
  store w !! (bucket_of uri, prefix_of uri) = None ->
  exists w',
    predict plib uri params name index ensemble multimer seed tf xla w
    = (Raise (download_error plib (bucket_of uri) (prefix_of uri)), w')
    /\ raw_prediction w' = raw_prediction w
    /\ unrelaxed_protein w' = unrelaxed_protein w
    /\ store w' = store w
    /\ environ w'
       = <["XLA_PYTHON_CLIENT_MEM_FRACTION" := xla]>
           (<["TF_FORCE_UNIFIED_MEMORY" := tf]> (environ w)).
Proof.
  intros Hgs Hmissing. unfold predict, fetch_model_features.
  cbn [store]. rewrite Hgs, Hmissing. eexists. by split_and!.
Qed.

(** X15.  A prediction that raises never sets the ranking confidence and
never touches the metadata of the unrelaxed protein.  Either the features
could not be fetched: then the two uris and the store are as they were; or
the model was run and it, or the look-up of the confidence in its result,
failed: then both uris are already suffixed and the store is as the model
left it. *)
Theorem X15_predict_failure uri params name index ensemble multimer seed
    tf xla w e w' :
  predict plib uri params name index ensemble multimer seed tf xla w
  = (Raise e, w') ->
  out_metadata (raw_prediction w') !! "ranking_confidence"
  = out_metadata (raw_prediction w) !! "ranking_confidence"
  /\ out_metadata (unrelaxed_protein w') = out_metadata (unrelaxed_protein w)
  /\ (out_uri (raw_prediction w') = out_uri (raw_prediction w)
      /\ out_uri (unrelaxed_protein w') = out_uri (unrelaxed_protein w)
      /\ store w' = store w
      \/ out_uri (raw_prediction w') = out_uri (raw_prediction w) +:+ ".pkl"
         /\ out_uri (unrelaxed_protein w')
            = out_uri (unrelaxed_protein w) +:+ ".pdb"
         /\ exists args before model_result after,
              alphafold_predict plib args before = (model_result, after)
              /\ sur_store before = store w
              /\ store w' = sur_store after).
Proof.
  unfold predict.
  destruct (fetch_model_features plib uri _) as [[path|e1] w1] eqn:Ef;
    apply fetch_model_features_frame in Ef as (Hs & He & Hr & Hu);
    cbn [store environ raw_prediction unrelaxed_protein] in *.
  2:{ intros [= _ <-]. rewrite Hr, Hu, Hs. split_and!; auto. }
  cbv zeta. rewrite Hr, Hu.
  match goal with
  | |- context [alphafold_predict plib ?a ?f] =>
      destruct (alphafold_predict plib a f) as [[res|e1] after] eqn:Ea
  end.
  - destruct (res !! "ranking_confidence"); [done|].
    intros [= _ <-]. cbn.
    split_and!; [by rewrite !lookup_insert_ne|done|].
    right. split_and!; [done..|].
    eexists _, _, _, after. by split_and!; [exact Ea|..].
  - intros [= _ <-]. cbn. split_and!; [done..|].
    right. split_and!; [done..|].
    eexists _, _, _, after. by split_and!; [exact Ea|..].
Qed.

(** X16.  Model features whose uri does not start with [gs://] are taken
from the artifact's local path: nothing is downloaded, and the model is run
on that path with the object store and the local files as they were before
the call; what has changed in them afterwards is what the model changed. *)
Theorem X16_predict_local_features uri params name index ensemble multimer
    seed tf xla w r w' :
  String.prefix "gs://" uri = false ->
  predict plib uri params name index ensemble multimer seed tf xla w
  = (r, w') ->
  fetch_model_features plib uri w = (Ok (artifact_path plib uri), w)
  /\ downloads w' = downloads w
  /\ exists args model_result after,
       alphafold_predict plib args
         (Surroundings (store w) (files w)
            (<["XLA_PYTHON_CLIENT_MEM_FRACTION" := xla]>
               (<["TF_FORCE_UNIFIED_MEMORY" := tf]> (environ w))))
       = (model_result, after)
       /\ model_features_path args = artifact_path plib uri
       /\ store w' = sur_store after
       /\ files w' = sur_files after.
Proof.
  intros Hlocal. unfold predict, fetch_model_features. rewrite Hlocal.
  cbv zeta. cbn [store files environ raw_prediction unrelaxed_protein downloads].
  match goal with
  | |- context [alphafold_predict plib ?a ?f] =>
      destruct (alphafold_predict plib a f) as [[res|e1] after] eqn:Ea;
        [destruct (res !! "ranking_confidence")|];
      intros [= _ <-]; (split; [done|]); (split; [done|]);
      eexists a, _, after; by split_and!; [exact Ea|..]
  end.
Qed.

End PredictFacts.

(** ** From the aggregation to the prediction *)

Section Handover.
Import PyStr PyStrFacts.
Context {bytes : Type}.
Variable lib : library bytes.
Variable plib : predict_library bytes.

Lemma prefix_cons a s1 b s2 :
  String.prefix (String a s1) (String b s2)
  = Ascii.eqb a b && String.prefix s1 s2.
Proof.
  cbn [String.prefix]. destruct (ascii_dec a b) as [->|Hne].
  - by rewrite Ascii.eqb_refl.
  - by rewrite (proj2 (Ascii.eqb_neq a b)).
Qed.

Lemma scheme_not_completed_plain x :
  String.prefix "gs://" x = false ->
  String.prefix "gs://" (x +:+ "all_chain_features.pkl") = false.
Proof.
  destruct x as [|c1 [|c2 [|c3 [|c4 [|c5 x]]]]];
    scheme_cases app_cons app_empty_l prefix_cons.
  all: by destruct x.
Qed.

Lemma scheme_not_completed_sep x :
  String.prefix "gs://" x = false -> ends_with "/" x = false ->
  String.prefix "gs://" (x +:+ "/all_chain_features.pkl") = false.
Proof.
  destruct x as [|c1 [|c2 [|c3 [|c4 [|c5 x]]]]];
    scheme_cases app_cons app_empty_l prefix_cons.
  all: by destruct x.
Qed.

Lemma no_scheme_plain x :
  occurs "gs://" x = false ->
  occurs "gs://" (x +:+ "all_chain_features.pkl") = false.
Proof.
  induction x as [|c x IH]; [done|].
  intros Hx. pose proof Hx as [Hp Hx']%orb_false_elim.
  rewrite app_cons, occurs_cons, <- app_cons.
  by rewrite (scheme_not_completed_plain _ Hp), IH.
Qed.

Lemma ends_with_tail c d x :
  x <> EmptyString -> ends_with c (String d x) = ends_with c x.
Proof. by destruct x. Qed.

Lemma no_scheme_sep x :
  occurs "gs://" x = false -> ends_with "/" x = false ->
  occurs "gs://" (x +:+ "/all_chain_features.pkl") = false.
Proof.
  induction x as [|c x IH]; [done|].
  intros Hx Hend. pose proof Hx as [Hp Hx']%orb_false_elim.
  rewrite app_cons, occurs_cons, <- app_cons.
  rewrite (scheme_not_completed_sep _ Hp Hend). cbn [orb].
  destruct x as [|d x]; [done|].
  apply IH; [done|]. by rewrite ends_with_tail in Hend.
Qed.

(** The destination under a well-formed output prefix is well formed. *)
Lemma destination_gs_path b r o :
  gs_path b r o ->
  gs_path b (path_join r "all_chain_features.pkl")
            (path_join o "all_chain_features.pkl").
Proof.
  intros Ho. pose proof Ho as (_ & Hb & Hno).
  destruct (output_location_gs_path _ _ _ Ho) as [_ Huri].
  split_and!; [done..|].
  unfold path_join.
  change (String.prefix "/" "all_chain_features.pkl") with false. cbv iota.
  destruct r as [|c r].
  - cbn [String.eqb orb]. rewrite app_empty_l.
    rewrite app_empty_r in Hno.
    replace (b +:+ "/" +:+ "all_chain_features.pkl")
      with ((b +:+ "/") +:+ "all_chain_features.pkl")
      by (by rewrite app_assoc).
    by apply no_scheme_plain.
  - cbn [String.eqb orb].
    destruct (ends_with "/" (String c r)) eqn:Hend.
    + replace (b +:+ "/" +:+ String c r +:+ "all_chain_features.pkl")
        with ((b +:+ "/" +:+ String c r) +:+ "all_chain_features.pkl")
        by (by rewrite !app_assoc).
      by apply no_scheme_plain.
    + replace (b +:+ "/" +:+ String c r +:+ "/" +:+ "all_chain_features.pkl")
        with ((b +:+ "/" +:+ String c r) +:+ "/all_chain_features.pkl")
        by (by rewrite !app_assoc).
      apply no_scheme_sep; [done|].
      replace (b +:+ "/" +:+ String c r) with ((b +:+ "/") +:+ String c r)
        by (by rewrite app_assoc).
      by rewrite ends_with_app.
Qed.


End Handover.

(** ** Properties of the template search component *)

Section HmmsearchFacts.
Variable hlib : hmmsearch_library.

(** [repr] on a plain name, on a name with an apostrophe, on a name with
both quotes, and on a name with a tab and a backslash. *)
Example py_repr_ex :
  py_repr "pdb_obsolete" = "'pdb_obsolete'"
  /\ py_repr "it's"
     = String double_quote ("it's" +:+ String double_quote EmptyString)
  /\ py_repr (String "'" (String double_quote EmptyString))
     = String "'" (String "\" (String "'"
         (String double_quote (String "'" EmptyString))))
  /\ py_repr (String (ascii_of_nat 9) "\") = "'\t\\'"
  /\ py_repr (String (ascii_of_nat 127) EmptyString) = "'\x7f'".
Proof. by vm_compute. Qed.

Lemma subscript_ok {V} (d : gmap string V) k v :
  subscript d k = Ok v <-> d !! k = Some v.
Proof.
  unfold subscript. destruct (d !! k); split; congruence.
Qed.

(** The arguments are built exactly when the four entries are there. *)
Lemma hmmsearch_call_args_ok sequence ref_databases msa t m o date max_hits
    out args :
  hmmsearch_call_args hlib sequence ref_databases msa t m o date max_hits out
  = Ok args ->
  exists format te me oe,
    in_metadata msa !! "data_format" = Some format
    /\ db_metadata ref_databases !! t = Some te
    /\ db_metadata ref_databases !! m = Some me
    /\ db_metadata ref_databases !! o = Some oe
    /\ msa_data_format args = format
    /\ template_db_path args = PyStr.path_join (db_uri ref_databases) te
    /\ mmcif_path args = PyStr.path_join (db_uri ref_databases) me
    /\ obsolete_path args = PyStr.path_join (db_uri ref_databases) oe.
Proof.
  unfold hmmsearch_call_args, and_then, subscript.
  destruct (in_metadata msa !! "data_format") as [format|]; [|done].
  destruct (db_metadata ref_databases !! t) as [te|]; [|done].
  destruct (db_metadata ref_databases !! m) as [me|]; [|done].
  destruct (db_metadata ref_databases !! o) as [oe|]; [|done].
  intros [= <-]. by exists format, te, me, oe.
Qed.

(** X18.  A template search either raises and leaves both output artifacts
as they were, or returns having recorded on the hits the category, the
number of hits the search returned, the format and the tool, and on the
features the category and the format; the uris and the metadata under other
keys are kept. *)
Theorem X18_hmmsearch_outcome sequence ref_databases msa t m o date max_hits
    out r out' :
  hmmsearch hlib sequence ref_databases msa t m o date max_hits out
  = (r, out') ->
  (exists e, r = Raise e) /\ out' = out
  \/ r = Ok tt
     /\ exists args hits,
          hmmsearch_call_args hlib sequence ref_databases msa t m o date
            max_hits out = Ok args
          /\ run_hmmsearch hlib args = Ok hits
          /\ uri (template_hits out') = uri (template_hits out)
          /\ uri (template_features out') = uri (template_features out)
          /\ (forall k,
                metadata (template_hits out') !! k
                = if decide (k = "tool") then Some (MStr "hmmearch")
                  else if decide (k = "data_format") then Some (MStr "sto")
                  else if decide (k = "num_hits")
                       then Some (MInt (Z.of_nat (length hits)))
                  else if decide (k = "category") then Some (MStr "msa")
                  else metadata (template_hits out) !! k)
          /\ (forall k,
                metadata (template_features out') !! k
                = if decide (k = "data_format") then Some (MStr "pkl")
                  else if decide (k = "category") then Some (MStr "features")
                  else metadata (template_features out) !! k).
Proof.
  unfold hmmsearch, and_then.
  destruct (hmmsearch_call_args hlib _ _ _ _ _ _ _ _ _) as [args|e] eqn:Ea.
  2:{ intros [= <- <-]. left. eauto. }
  destruct (run_hmmsearch hlib args) as [hits|e] eqn:Er.
  2:{ intros [= <- <-]. left. eauto. }
  intros [= <- <-]. right. split; [done|]. exists args, hits.
  split_and!; [done..| |]; intros k; cbn [metadata template_hits
    template_features]; rewrite ?lookup_insert;
    repeat (case_decide; subst; try done).
Qed.

(** X19.  When the format of the alignment is recorded and a database name
is missing from the databases' metadata, the search raises the [KeyError]
of a missing name -- the first one in the order template, mmCIF, obsolete
-- with the [repr] of that name as its text, without running the tool,
and both output artifacts are as they were. *)
Theorem X19_hmmsearch_missing_database sequence ref_databases msa t m o date
    max_hits out name :
  is_Some (in_metadata msa !! "data_format") ->
  name ∈ [t; m; o] ->
  db_metadata ref_databases !! name = None ->
  exists first before after,
    [t; m; o] = before ++ first :: after
    /\ db_metadata ref_databases !! first = None
    /\ Forall (fun k => is_Some (db_metadata ref_databases !! k)) before
    /\ hmmsearch hlib sequence ref_databases msa t m o date max_hits out
       = (Raise (OtherError "KeyError" (py_repr first)), out).
Proof.
  intros [format Hformat] Hin Hnone.
  unfold hmmsearch, hmmsearch_call_args, and_then, subscript.
  rewrite Hformat.
  destruct (db_metadata ref_databases !! t) as [te|] eqn:Et.
  2:{ exists t, [], [m; o]. by split_and!. }
  destruct (db_metadata ref_databases !! m) as [me|] eqn:Em.
  2:{ exists m, [t], [o]. split_and!; [done..| |done].
      repeat constructor. eauto. }
  destruct (db_metadata ref_databases !! o) as [oe|] eqn:Eo.
  2:{ exists o, [t; m], []. split_and!; [done..| |done].
      repeat constructor; eauto. }
  exfalso. revert Hin. rewrite !elem_of_cons, elem_of_nil.
  intros [->|[->|[->|[]]]]; congruence.
Qed.

(** X20.  The path of each database handed to the tool is its entry in the
databases' metadata joined to the mount point as [os.path.join] does: an
entry that starts with the separator is taken as it is, the mount point
dropped; any other entry is taken alone when the mount point is empty, is
put right behind a mount point that ends with the separator, and behind the
mount point and one separator otherwise. *)
Theorem X20_hmmsearch_database_paths sequence ref_databases msa t m o date
    max_hits out args :
  hmmsearch_call_args hlib sequence ref_databases msa t m o date max_hits out
  = Ok args ->
  let mount := db_uri ref_databases in
  Forall (fun '(name, path) =>
            exists entry,
              db_metadata ref_databases !! name = Some entry
              /\ path
                 = if String.prefix "/" entry then entry
                   else if bool_decide (mount = EmptyString) then entry
                   else if PyStr.ends_with "/" mount then mount +:+ entry
                   else mount +:+ "/" +:+ entry)
         [(t, template_db_path args); (m, mmcif_path args);
          (o, obsolete_path args)].
Proof.
  intros (format & te & me & oe & _ & Ht & Hm & Ho & _ & -> & -> & ->)
           %hmmsearch_call_args_ok.
  cbv zeta.
  assert (forall entry,
            PyStr.path_join (db_uri ref_databases) entry
            = if String.prefix "/" entry then entry
              else if bool_decide (db_uri ref_databases = EmptyString)
                   then entry
              else if PyStr.ends_with "/" (db_uri ref_databases)
                   then db_uri ref_databases +:+ entry
              else db_uri ref_databases +:+ "/" +:+ entry) as Hjoin.
  { intros entry. unfold PyStr.path_join.
    destruct (String.prefix "/" entry); [done|].
    destruct (db_uri ref_databases) as [|c mount] eqn:Emount.
    - by rewrite bool_decide_eq_true_2.
    - by rewrite bool_decide_eq_false_2. }
  repeat constructor; eexists; (split; [eassumption|]); apply Hjoin.
Qed.

End HmmsearchFacts.

(** ** The properties at concrete inputs *)

Section MoreWitnesses.
Import SpecLib SpecLibFacts Demo DemoMore.

Lemma X3_witness :
  run_AB_refused
  = (Raise (RuntimeError
              "Failed to save features to GCS at gs://bkt/run1/full: 403 access denied"),
     run_AB_refused.2)
  /\ gcs run_AB_refused.2 = gcs world_refusing
  /\ features run_AB_refused.2 = features world_refusing.
Proof.
  assert (run_AB_refused
          = (Raise (RuntimeError
                      "Failed to save features to GCS at gs://bkt/run1/full: 403 access denied"),
             run_AB_refused.2)) as Hrun by (by vm_compute).
  split; [exact Hrun|].
  exact (X3_failure_leaves_no_output spec_lib manifest_AB [A; B] "false"
           "gs://bkt/default" world_refusing _ _ Hrun).
Defined.

Lemma X4_witness :
  run_AB = (Ok tt, run_AB.2)
  /\ ("bkt", "run1/A/features.pkl")
     <> output_location (effective_output manifest_AB "gs://bkt/default")
  /\ gcs run_AB.2 !! ("bkt", "run1/A/features.pkl")
     = gcs world_AB !! ("bkt", "run1/A/features.pkl").
Proof.
  assert (run_AB = (Ok tt, run_AB.2)) as Hrun by (by vm_compute).
  assert (("bkt", "run1/A/features.pkl")
          <> output_location (effective_output manifest_AB "gs://bkt/default"))
    as Hloc by (by vm_compute).
  split_and!; [exact Hrun|exact Hloc|].
  exact (X4_only_destination_changes spec_lib manifest_AB [A; B] "false"
           "gs://bkt/default" world_AB _ _ _ Hrun Hloc).
Defined.

Lemma X5_witness :
  run_AB = (Ok tt, run_AB.2)
  /\ exists evs,
       trace run_AB.2 = trace world_AB ++ evs
       /\ length (filter (fun ev => is_upload ev = true) evs) <= 1
       /\ forall b k,
            EvUpload b k ∈ evs ->
            (b, k)
            = output_location (effective_output manifest_AB "gs://bkt/default").
Proof.
  assert (run_AB = (Ok tt, run_AB.2)) as Hrun by (by vm_compute).
  split; [exact Hrun|].
  exact (X5_at_most_one_upload spec_lib manifest_AB [A; B] "false"
           "gs://bkt/default" world_AB _ _ Hrun).
Defined.

Lemma X6_witness :
  load_chains spec_lib manifest_AB [] [] world_AB = (Ok [], world_AB)
  /\ add_assembly_features spec_lib [] = Ok []
  /\ single_chain_case "true" [] = false
  /\ pair_and_merge spec_lib [] = Raise (ValueError "no chains to merge")
  /\ exists w' evs,
       run_no_chains = (Raise (ValueError "no chains to merge"), w')
       /\ trace w' = trace world_AB ++ evs
       /\ forall b k, EvUpload b k ∉ evs.
Proof.
  assert (load_chains spec_lib manifest_AB [] [] world_AB = (Ok [], world_AB))
    as Hl by reflexivity.
  assert (add_assembly_features spec_lib [] = Ok []) as Ha by reflexivity.
  assert (single_chain_case "true" [] = false) as Hs by reflexivity.
  assert (pair_and_merge spec_lib []
          = Raise (ValueError "no chains to merge")) as Hp by reflexivity.
  split_and!; [exact Hl|exact Ha|exact Hs|exact Hp|].
  exact (X6_library_errors_raised_as_is spec_lib manifest_AB [] "true"
           "gs://bkt/default" world_AB [] world_AB _ Hl
           (or_intror (ex_intro _ [] (conj Ha (conj Hs (or_introl Hp)))))).
Defined.

Lemma X7_witness :
  add_assembly_features spec_lib [] = Ok []
  /\ exists evs,
       trace run_no_chains.2
       = trace world_AB ++ EvAssembly :: EvPairAndMerge :: evs
       /\ (forall e, pair_and_merge spec_lib [] = Raise e ->
                     run_no_chains.1 = Raise e /\ evs = []).
Proof.
  assert (add_assembly_features spec_lib [] = Ok []) as Ha by reflexivity.
  split; [exact Ha|].
  exact (X7_no_chains_goes_to_pairing spec_lib manifest_AB "true"
           "gs://bkt/default" world_AB run_no_chains.1 run_no_chains.2 Ha
           (surjective_pairing run_no_chains)).
Defined.

Lemma X8_witness :
  load_chains spec_lib manifest_A [] [A] world_AB = (Ok loaded_A, world_after_A)
  /\ load_chain spec_lib manifest_A loaded_A B world_after_A
     = (Raise (ValueError "No path information found for chain B"),
        world_after_A)
  /\ run_ABA_unlisted
     = (Raise (ValueError "No path information found for chain B"),
        world_after_A)
  /\ exists done_ left_,
       chain_events manifest_A B = done_ ++ left_
       /\ trace world_after_A
          = trace world_AB ++ flat_map (chain_events manifest_A) [A] ++ done_.
Proof.
  assert (load_chains spec_lib manifest_A [] [A] world_AB
          = (Ok loaded_A, world_after_A)) as Hpre by (by vm_compute).
  assert (load_chain spec_lib manifest_A loaded_A B world_after_A
          = (Raise (ValueError "No path information found for chain B"),
             world_after_A)) as Hcd by (by vm_compute).
  split_and!; [exact Hpre|exact Hcd|..];
    [exact (proj1 (X8_later_chains_untouched spec_lib manifest_A [A] B [A]
                     "false" "gs://bkt/default" world_AB _ _ _ _ Hpre Hcd))
    |exact (proj2 (X8_later_chains_untouched spec_lib manifest_A [A] B [A]
                     "false" "gs://bkt/default" world_AB _ _ _ _ Hpre Hcd))].
Defined.

Lemma X9_witness :
  run_ABA_loop = (Ok loaded_AB, run_ABA_loop.2)
  /\ dict_keys loaded_AB = ["A"; "B"]
  /\ forall k conv,
       dict_get k loaded_AB = Some conv ->
       exists cd, cd ∈ [A; B; A] /\ chain_id cd = k
                  /\ fetched spec_lib manifest_AB (gcs world_AB) cd conv.
Proof.
  assert (run_ABA_loop = (Ok loaded_AB, run_ABA_loop.2)) as Hrun
    by (by vm_compute).
  split; [exact Hrun|].
  exact (X9_one_entry_per_chain_in_order spec_lib manifest_AB [A; B; A]
           world_AB _ _ Hrun).
Defined.

Lemma X12_witness :
  PyStr.occurs "/" (PyStr.replace "gs://" EmptyString "gs://bkt") = false
  /\ chain_location "gs://bkt" = ("bkt", "/features.pkl")
  /\ output_location "gs://bkt" = ("bkt", "all_chain_features.pkl").
Proof.
  assert (PyStr.occurs "/" (PyStr.replace "gs://" EmptyString "gs://bkt")
          = false) as Hbucket by reflexivity.
  split; [exact Hbucket|].
  exact (X12_bucket_only_paths "gs://bkt" Hbucket).
Defined.

Lemma X13_witness :
  predict_AB = (Ok tt, predict_AB.2)
  /\ exists args before prediction_result confidence after,
       alphafold_predict demo_plib args before = (Ok prediction_result, after)
       /\ prediction_result !! "ranking_confidence" = Some confidence
       /\ model_params_path args = "/gcs/bkt/params/model_1"
       /\ raw_prediction_path args = "/gcs/pipeline-root/raw_prediction.pkl"
       /\ unrelaxed_protein_path args
          = "/gcs/pipeline-root/unrelaxed_protein.pdb"
       /\ sur_store before = store predict_world_AB
       /\ sur_environ before
          = <["XLA_PYTHON_CLIENT_MEM_FRACTION" := "4.0"]>
              (<["TF_FORCE_UNIFIED_MEMORY" := "1"]> ∅)
       /\ raw_prediction predict_AB.2
          = OutArtifact "gs://pipeline-root/raw_prediction.pkl"
              (<["ranking_confidence" := confidence]>
                 (<["prediction_index" := PInt 0]>
                    (<["category" := PStr "raw_prediction"]> ∅)))
       /\ unrelaxed_protein predict_AB.2
          = OutArtifact "gs://pipeline-root/unrelaxed_protein.pdb"
              (<["category" := PStr "unrelaxed_protein"]> ∅)
       /\ store predict_AB.2 = sur_store after
       /\ files predict_AB.2 = sur_files after
       /\ environ predict_AB.2 = sur_environ after.
Proof.
  assert (predict_AB = (Ok tt, predict_AB.2)) as Hrun by (by vm_compute).
  split; [exact Hrun|].
  exact (X13_predict_success demo_plib (uri (features run_AB.2))
           "gs://bkt/params/model_1" "model_1_multimer_v3" 0 1 true 42 "1"
           "4.0" predict_world_AB _ Hrun).
Defined.

Lemma X14_witness :
  String.prefix "gs://" "gs://bkt/run1/none/all_chain_features.pkl" = true
  /\ store predict_world_AB
       !! (bucket_of "gs://bkt/run1/none/all_chain_features.pkl",
           prefix_of "gs://bkt/run1/none/all_chain_features.pkl") = None
  /\ exists w',
       predict_missing
       = (Raise (OtherError "NotFound"
                   "gs://bkt/run1/none/all_chain_features.pkl"), w')
       /\ raw_prediction w' = fresh_raw_prediction
       /\ unrelaxed_protein w' = fresh_unrelaxed_protein
       /\ store w' = store predict_world_AB
       /\ environ w'
          = <["XLA_PYTHON_CLIENT_MEM_FRACTION" := "4.0"]>
              (<["TF_FORCE_UNIFIED_MEMORY" := "1"]> ∅).
Proof.
  assert (String.prefix "gs://" "gs://bkt/run1/none/all_chain_features.pkl"
          = true) as Hgs by reflexivity.
  assert (store predict_world_AB
            !! (bucket_of "gs://bkt/run1/none/all_chain_features.pkl",
                prefix_of "gs://bkt/run1/none/all_chain_features.pkl") = None)
    as Hnone by (by vm_compute).
  split_and!; [exact Hgs|exact Hnone|].
  exact (X14_predict_missing_features demo_plib
           "gs://bkt/run1/none/all_chain_features.pkl"
           "gs://bkt/params/model_1" "model_1_multimer_v3" 0 1 true 42 "1"
           "4.0" predict_world_AB Hgs Hnone).
Defined.

Lemma X15_witness :
  predict_local_missing
  = (Raise (OtherError "FileNotFoundError"
              "/mnt/features/all_chain_features.pkl"),
     predict_local_missing.2)
  /\ out_metadata (raw_prediction predict_local_missing.2)
       !! "ranking_confidence"
     = out_metadata fresh_raw_prediction !! "ranking_confidence"
  /\ out_metadata (unrelaxed_protein predict_local_missing.2)
     = out_metadata fresh_unrelaxed_protein
  /\ (out_uri (raw_prediction predict_local_missing.2)
      = out_uri fresh_raw_prediction
      /\ out_uri (unrelaxed_protein predict_local_missing.2)
         = out_uri fresh_unrelaxed_protein
      /\ store predict_local_missing.2 = store predict_world_AB
      \/ out_uri (raw_prediction predict_local_missing.2)
         = out_uri fresh_raw_prediction +:+ ".pkl"
         /\ out_uri (unrelaxed_protein predict_local_missing.2)
            = out_uri fresh_unrelaxed_protein +:+ ".pdb"
         /\ exists args before model_result after,
              alphafold_predict demo_plib args before = (model_result, after)
              /\ sur_store before = store predict_world_AB
              /\ store predict_local_missing.2 = sur_store after).
Proof.
  assert (predict_local_missing
          = (Raise (OtherError "FileNotFoundError"
                      "/mnt/features/all_chain_features.pkl"),
             predict_local_missing.2)) as Hrun by (by vm_compute).
  split; [exact Hrun|].
  exact (X15_predict_failure demo_plib "/mnt/features/all_chain_features.pkl"
           "gs://bkt/params/model_1" "model_1_multimer_v3" 0 1 true 42 "1"
           "4.0" predict_world_AB _ _ Hrun).
Defined.

Lemma X16_witness :
  String.prefix "gs://" "/mnt/features/all_chain_features.pkl" = false
  /\ predict_local = (Ok tt, predict_local.2)
  /\ fetch_model_features demo_plib "/mnt/features/all_chain_features.pkl"
       predict_world_local
     = (Ok "/mnt/features/all_chain_features.pkl", predict_world_local)
  /\ downloads predict_local.2 = []
  /\ exists args model_result after,
       alphafold_predict demo_plib args
         (Surroundings (store predict_world_local)
            (files predict_world_local)
            (<["XLA_PYTHON_CLIENT_MEM_FRACTION" := "4.0"]>
               (<["TF_FORCE_UNIFIED_MEMORY" := "1"]> ∅)))
       = (model_result, after)
       /\ model_features_path args = "/mnt/features/all_chain_features.pkl"
       /\ store predict_local.2 = sur_store after
       /\ files predict_local.2 = sur_files after.
Proof.
  assert (String.prefix "gs://" "/mnt/features/all_chain_features.pkl"
          = false) as Hlocal by reflexivity.
  assert (predict_local = (Ok tt, predict_local.2)) as Hrun
    by (by vm_compute).
  split_and!; [exact Hlocal|exact Hrun|..];
    pose proof (X16_predict_local_features demo_plib
                  "/mnt/features/all_chain_features.pkl"
                  "gs://bkt/params/model_1" "model_1_multimer_v3" 0 1 true 42
                  "1" "4.0" predict_world_local _ _ Hlocal Hrun)
      as (Hfetch & Hd & Hmodel);
    [exact Hfetch|exact Hd|exact Hmodel].
Defined.


Lemma X18_witness :
  search = (Ok tt, search.2)
  /\ ((exists e, Ok tt = Raise e) /\ search.2 = fresh_outputs
      \/ Ok tt = Ok tt
         /\ exists args hits,
              hmmsearch_call_args demo_hlib sequence databases alignment
                "pdb_seqres" "pdb_mmcif" "pdb_obsolete" "2022-01-01" 20
                fresh_outputs = Ok args
              /\ run_hmmsearch demo_hlib args = Ok hits
              /\ uri (template_hits search.2) = uri (template_hits fresh_outputs)
              /\ uri (template_features search.2)
                 = uri (template_features fresh_outputs)
              /\ (forall k,
                    metadata (template_hits search.2) !! k
                    = if decide (k = "tool") then Some (MStr "hmmearch")
                      else if decide (k = "data_format")
                           then Some (MStr "sto")
                      else if decide (k = "num_hits")
                           then Some (MInt (Z.of_nat (length hits)))
                      else if decide (k = "category") then Some (MStr "msa")
                      else metadata (template_hits fresh_outputs) !! k)
              /\ (forall k,
                    metadata (template_features search.2) !! k
                    = if decide (k = "data_format") then Some (MStr "pkl")
                      else if decide (k = "category")
                           then Some (MStr "features")
                      else metadata (template_features fresh_outputs) !! k)).
Proof.
  assert (search = (Ok tt, search.2)) as Hrun by (by vm_compute).
  split; [exact Hrun|].
  exact (X18_hmmsearch_outcome demo_hlib sequence databases alignment
           "pdb_seqres" "pdb_mmcif" "pdb_obsolete" "2022-01-01" 20
           fresh_outputs _ _ Hrun).
Defined.

Lemma X19_witness :
  is_Some (in_metadata alignment !! "data_format")
  /\ "pdb_obsolete" ∈ ["pdb_seqres"; "pdb_mmcif"; "pdb_obsolete"]
  /\ db_metadata databases_no_obsolete !! "pdb_obsolete" = None
  /\ exists first before after,
       ["pdb_seqres"; "pdb_mmcif"; "pdb_obsolete"] = before ++ first :: after
       /\ db_metadata databases_no_obsolete !! first = None
       /\ Forall (fun k => is_Some (db_metadata databases_no_obsolete !! k))
                 before
       /\ search_no_obsolete
          = (Raise (OtherError "KeyError" (py_repr first)), fresh_outputs).
Proof.
  assert (is_Some (in_metadata alignment !! "data_format")) as Hformat
    by (exists (MStr "sto"); by vm_compute).
  assert ("pdb_obsolete" ∈ ["pdb_seqres"; "pdb_mmcif"; "pdb_obsolete"])
    as Hin by (by repeat constructor).
  assert (db_metadata databases_no_obsolete !! "pdb_obsolete" = None)
    as Hnone by (by vm_compute).
  split_and!; [exact Hformat|exact Hin|exact Hnone|].
  exact (X19_hmmsearch_missing_database demo_hlib sequence
           databases_no_obsolete alignment "pdb_seqres" "pdb_mmcif"
           "pdb_obsolete" "2022-01-01" 20 fresh_outputs "pdb_obsolete"
           Hformat Hin Hnone).
Defined.

Lemma X20_witness :
  hmmsearch_call_args demo_hlib sequence databases alignment "pdb_seqres"
    "pdb_mmcif" "pdb_obsolete" "2022-01-01" 20 fresh_outputs
  = Ok search_args
  /\ Forall (fun '(name, path) =>
               exists entry,
                 db_metadata databases !! name = Some entry
                 /\ path
                    = if String.prefix "/" entry then entry
                      else if bool_decide (db_uri databases = EmptyString)
                           then entry
                      else if PyStr.ends_with "/" (db_uri databases)
                           then db_uri databases +:+ entry
                      else db_uri databases +:+ "/" +:+ entry)
            [("pdb_seqres", "/mnt/nfs/alphafold/pdb_seqres/pdb_seqres.txt");
             ("pdb_mmcif", "/data/pdb_mmcif/mmcif_files");
             ("pdb_obsolete", "/mnt/nfs/alphafold/pdb_mmcif/obsolete.dat")].
Proof.
  assert (hmmsearch_call_args demo_hlib sequence databases alignment
            "pdb_seqres" "pdb_mmcif" "pdb_obsolete" "2022-01-01" 20
            fresh_outputs = Ok search_args) as Hargs by (by vm_compute).
  split; [exact Hargs|].
  exact (X20_hmmsearch_database_paths demo_hlib sequence databases alignment
           "pdb_seqres" "pdb_mmcif" "pdb_obsolete" "2022-01-01" 20
           fresh_outputs search_args Hargs).
Defined.

End MoreWitnesses.
